(** * Wastewater Impact Dashboard (Hello.py): the filter-and-aggregate pipeline

    Hello.py is one Streamlit script.  Each interaction re-executes it from
    the top: it reads a CSV file into a pandas frame, adds the coordinate
    columns, reads the sidebar widgets, selects the rows that match, and
    hands the selection and its aggregates to the map, the two line charts
    and the pie chart.

    The embedding follows the script block by block.  A frame is its header
    (column names, in order) and its rows; a row holds the cells of the
    columns the script reads or writes.  Calls into pandas are functions on
    rows and columns with the meaning their documentation gives them;
    Streamlit's output calls append to the page; [st.stop] and an uncaught
    exception end the run.  What the outside decides (the content of the
    file, what a widget returns) is a field of [World].

    Cells are what pandas makes of the file.  A text cell (entity, health
    impact) is a string, or missing where the field is blank.  A cell of a
    measure is an int64 where its column holds whole numbers only and a
    float64 otherwise, a blank field being NaN; int64 sums wrap around,
    float64 sums round, one IEEE 754 addition per row in row order, and
    NaN is skipped.  The year is an integer: a row with a blank year fails
    both comparisons of line 79 and enters no view.  The two derived
    coordinates are float64, or missing. *)

From Stdlib Require Import ZArith Floats Uint63.
From stdpp Require Import base strings list sorting gmap fin_maps.
Set Warnings "-inexact-float".
Local Open Scope Z_scope.

(** ** Frames *)

Module Frame.

(** RGBA, as the four-element list of line 87. *)
Definition Color := list Z.

(** A text cell; [None] is pandas' missing value, which a blank field
    becomes. *)
Abbreviation Text := (option string) (only parsing).

(** A numeric cell: a 64-bit integer, or a double (NaN when the field is
    blank). *)
Inductive Number := Int64 (z : Z) | Float64 (f : float).

Inductive dtype := int64 | float64.

Record Row := mkRow {
  Entity : Text;
  Year : Z;
  Health_Impact : Text;
  Premature_Death_Count : Number;
  Total_discharges : Number;     (* 'Total discharges to Inland waters(million m3)' *)
  latitude : option float;       (* None is pandas' missing value *)
  longitude : option float;
  color : option Color
}.

Record DataFrame := mkFrame {
  columns : list string;
  rows : list Row
}.

Definition set_latitude (v : option float) (r : Row) : Row :=
  mkRow (Entity r) (Year r) (Health_Impact r) (Premature_Death_Count r)
        (Total_discharges r) v (longitude r) (color r).

Definition set_longitude (v : option float) (r : Row) : Row :=
  mkRow (Entity r) (Year r) (Health_Impact r) (Premature_Death_Count r)
        (Total_discharges r) (latitude r) v (color r).

Definition set_color (v : option Color) (r : Row) : Row :=
  mkRow (Entity r) (Year r) (Health_Impact r) (Premature_Death_Count r)
        (Total_discharges r) (latitude r) (longitude r) v.

(** [name in df.columns] *)
Definition has_column (name : string) (df : DataFrame) : bool :=
  bool_decide (name ∈ columns df).

(** [df[name] = values]: an existing column keeps its place in the header, a
    new one goes last; the values are written row by row, in index order. *)
Definition add_column (name : string) (cols : list string) : list string :=
  if bool_decide (name ∈ cols) then cols else cols ++ [name].

Definition setitem {A} (name : string) (set : A → Row → Row)
    (values : list A) (df : DataFrame) : DataFrame :=
  mkFrame (add_column name (columns df)) (zip_with set values (rows df)).

(** [df[mask]]: the rows at which the boolean mask holds, in their order,
    under the same header. *)
Fixpoint select {A} (m : list bool) (l : list A) : list A :=
  match m, l with
  | b :: m', x :: l' => if b then x :: select m' l' else select m' l'
  | _, _ => []
  end.

Definition getitem_mask (df : DataFrame) (m : list bool) : DataFrame :=
  mkFrame (columns df) (select m (rows df)).

(** [df.empty]: some axis has length zero. *)
Definition empty (df : DataFrame) : bool :=
  match rows df, columns df with
  | _ :: _, _ :: _ => false
  | _, _ => true
  end.

(** Element-wise operations on columns.  [isin] finds a missing cell among
    the values when a missing value is one of them. *)
Definition ge (col : list Z) (v : Z) : list bool := (λ x, v <=? x) <$> col.
Definition le (col : list Z) (v : Z) : list bool := (λ x, x <=? v) <$> col.
Definition isin (col : list Text) (values : list Text) : list bool :=
  (λ x, bool_decide (x ∈ values)) <$> col.
Definition and_ (m1 m2 : list bool) : list bool := zip_with andb m1 m2.

(** [Series.unique()]: distinct values in order of first appearance, the
    missing value among them when a cell is missing. *)
Fixpoint unique (l : list Text) : list Text :=
  match l with
  | [] => []
  | x :: l' => x :: filter (λ y, y ≠ x) (unique l')
  end.

(** *** Arithmetic on cells *)

(** A column is int64 when every cell is. *)
Definition is_int64 (v : Number) : bool :=
  match v with Int64 _ => true | Float64 _ => false end.

Definition dtype_of (col : list Number) : dtype :=
  if forallb is_int64 col then int64 else float64.

(** Two's complement: the representative in [-2^63, 2^63). *)
Definition wrap64 (z : Z) : Z := (z + 2 ^ 63) mod 2 ^ 64 - 2 ^ 63.

(** The double nearest to an integer of 64 bits: the two halves are exact,
    their sum is rounded once. *)
Definition float_of_Z (z : Z) : float :=
  let a := Z.abs z in
  let f := (of_uint63 (Uint63.of_Z (a / 2 ^ 32)) * 4294967296
            + of_uint63 (Uint63.of_Z (a mod 2 ^ 32)))%float in
  if z <? 0 then (- f)%float else f.

Definition to_float64 (v : Number) : float :=
  match v with Int64 z => float_of_Z z | Float64 f => f end.

(** Addition: of int64 with int64 in int64, wrapping; otherwise in float64. *)
Definition add (a b : Number) : Number :=
  match a, b with
  | Int64 x, Int64 y => Int64 (wrap64 (x + y))
  | _, _ => Float64 (to_float64 a + to_float64 b)
  end.

Definition isna (v : Number) : bool :=
  match v with Int64 _ => false | Float64 f => is_nan f end.

(** One step of a sum with [skipna=True]. *)
Definition accumulate (s v : Number) : Number := if isna v then s else add s v.

Definition zero (t : dtype) : Number :=
  match t with int64 => Int64 0 | float64 => Float64 0 end.

(** The sum of cells of a column of the given dtype, from zero, in order. *)
Definition sum_as (t : dtype) (col : list Number) : Number :=
  foldl accumulate (zero t) col.


(** [Series.mean()]: the float64 sum of the values that are present, divided
    by their number; missing when none is present. *)
Definition mean (col : list (option float)) : option float :=
  match omap id col with
  | [] => None
  | f :: fs =>
      Some (foldl PrimFloat.add 0%float (f :: fs)
            / float_of_Z (Z.of_nat (length (f :: fs))))%float
  end.

(** [groupby('Year')[field].sum().reset_index()]: the groups are kept sorted
    by key; a row joins the group of its year or opens one at its place, and
    its cell is added to the sum of the group, which starts from zero. *)
Fixpoint add_to_group (start : Number) (y : Z) (v : Number)
    (groups : list (Z * Number)) : list (Z * Number) :=
  match groups with
  | [] => [(y, accumulate start v)]
  | (y', s) :: rest =>
      if y <? y' then (y, accumulate start v) :: groups
      else if y =? y' then (y', accumulate s v) :: rest
      else (y', s) :: add_to_group start y v rest
  end.

Definition group_rows (start : Number) (key : Row → Z) (value : Row → Number)
    (l : list Row) : list (Z * Number) :=
  foldl (λ groups r, add_to_group start (key r) (value r) groups) [] l.

Definition groupby_sum (key : Row → Z) (value : Row → Number) (l : list Row)
    : list (Z * Number) :=
  group_rows (zero (dtype_of (value <$> l))) key value l.

(** [Series.value_counts()]: one counter per distinct value; a missing cell
    is not counted ([dropna=True]). *)
Definition value_counts (col : list Text) : gmap string nat :=
  foldl (λ counts cell,
           match cell with
           | Some x => <[x := S (default O (counts !! x))]> counts
           | None => counts
           end) ∅ col.

End Frame.
Export Frame.

(** ** The page, and how a run ends *)

Module Streamlit.

Inductive Exception :=
  | FileNotFoundError (msg : string)
  | KeyError (key : string)
  | ValueError (msg : string)
  | OtherError (class msg : string).   (* ParserError, EmptyDataError, StreamlitAPIException, ... *)

(** [str(e)] *)
Definition str (e : Exception) : string :=
  match e with
  | FileNotFoundError msg => msg
  | KeyError key => "'" +:+ key +:+ "'"
  | ValueError msg => msg
  | OtherError _ msg => msg
  end.

Record ViewState := mkViewState {
  vs_latitude : option float;
  vs_longitude : option float;
  zoom : Z
}.

Record Layer := mkLayer {
  layer_type : string;
  layer_data : DataFrame;
  get_position : string;
  get_color : string;
  get_radius : Z;
  pickable : bool
}.

Record Deck := mkDeck {
  layers : list Layer;
  initial_view_state : ViewState;
  map_style : string
}.

Inductive Figure :=
  | px_line (data_frame : list (Z * Number)) (x y title : string) (markers : bool)
  | px_pie (data_frame : gmap string nat) (values names title : string).

(** What the script puts on the page.  Static text (title, headers,
    markdown) carries no data and is left out. *)
Inductive Element :=
  | error (msg : string)
  | sidebar_error (msg : string)
  | pydeck_chart (deck : Deck)
  | plotly_chart (fig : Figure).

Inductive Control := stop | rerun.

Inductive Result (A : Type) :=
  | Done (a : A)
  | Ended (how : Control)       (* st.stop(), st.experimental_rerun() *)
  | Raised (e : Exception).     (* an exception nobody caught *)
Arguments Done {A} a.
Arguments Ended {A} how.
Arguments Raised {A} e.

(** A piece of the script: from the page so far to a result and the page
    after it. *)
Definition Script (A : Type) : Type := list Element → Result A * list Element.

Definition ret {A} (a : A) : Script A := λ page, (Done a, page).

Definition bind {A B} (m : Script A) (k : A → Script B) : Script B :=
  λ page,
    match m page with
    | (Done a, page') => k a page'
    | (Ended how, page') => (Ended how, page')
    | (Raised e, page') => (Raised e, page')
    end.

Definition raise {A} (e : Exception) : Script A := λ page, (Raised e, page).

Definition lift {A} (r : Exception + A) : Script A :=
  match r with
  | inl e => raise e
  | inr a => ret a
  end.

Definition show (el : Element) : Script unit := λ page, (Done tt, page ++ [el]).

Definition st_error (msg : string) : Script unit := show (error msg).
Definition st_sidebar_error (msg : string) : Script unit := show (sidebar_error msg).
Definition st_pydeck_chart (d : Deck) : Script unit := show (pydeck_chart d).
Definition st_plotly_chart (f : Figure) : Script unit := show (plotly_chart f).
Definition st_stop {A} : Script A := λ page, (Ended stop, page).
Definition st_experimental_rerun {A} : Script A := λ page, (Ended rerun, page).

(** [try: body  except <those e with handler e = Some h>: h] *)
Definition try_except {A} (body : Script A)
    (handler : Exception → option (Script A)) : Script A :=
  λ page,
    match body page with
    | (Raised e, page') =>
        match handler e with
        | Some h => h page'
        | None => (Raised e, page')
        end
    | r => r
    end.

End Streamlit.
Export Streamlit.

#[global] Instance script_ret : MRet Script := @ret.
#[global] Instance script_bind : MBind Script := λ A B k m, bind m k.

(** What the outside decides during one run. *)
Record World := mkWorld {
  read_csv : string → Exception + DataFrame;
  slider : string → Z → Z → Z * Z → Exception + (Z * Z);
  multiselect : string → list Text → list Text → Exception + list Text;
  button : string → bool
}.

(** ** The script *)

Module Hello.

Definition data_path : string := "data/integrated_water_related_data (1) (1).csv".

(** Lines 16-20. *)
Definition load_data (w : World) : Script DataFrame :=
  try_except (lift (read_csv w data_path))
    (λ e, match e with
          | FileNotFoundError _ =>
              Some (st_error ("Failed to load data from " +:+ data_path +:+
                              ". Please check the file path and ensure the file exists.");;
                    st_stop)
          | _ => None
          end).

(** Lines 23-33. *)
Definition country_coords : gmap string (float * float) :=
  list_to_map [
    ("Australia", ((-25.2744)%float, 133.7751%float));
    ("Belarus", (53.7098%float, 27.9534%float));
    ("Belgium", (50.5039%float, 4.4699%float));
    ("Bulgaria", (42.7339%float, 25.4858%float));
    ("Costa Rica", (9.7489%float, (-83.7534)%float));
    ("Croatia", (45.1%float, 15.2%float));
    ("Czechia", (49.8175%float, 15.4730%float));
    ("Denmark", (56.2639%float, 9.5018%float));
    ("Estonia", (58.5953%float, 25.0136%float))
  ].

(** [country_coords.get(x, (None, None))]; a missing cell is no key of the
    table. *)
Definition coords_get (x : Text) : option float * option float :=
  match x with
  | Some name =>
      match country_coords !! name with
      | Some (lat, lon) => (Some lat, Some lon)
      | None => (None, None)
      end
  | None => (None, None)
  end.

(** [df[name]]: the column, or KeyError. *)
Definition getitem {A} (name : string) (field : Row → A) (df : DataFrame) : Script (list A) :=
  if has_column name df then ret (field <$> rows df) else raise (KeyError name).

(** Lines 36-41. *)
Definition add_coordinates (data : DataFrame) : Script DataFrame :=
  if has_column "Entity" data then
    entity ← getitem "Entity" Entity data;
    let data := setitem "latitude" set_latitude ((λ x, (coords_get x).1) <$> entity) data in
    entity ← getitem "Entity" Entity data;
    let data := setitem "longitude" set_longitude ((λ x, (coords_get x).2) <$> entity) data in
    ret data
  else
    st_error "The expected 'Entity' column is not in the dataset.";;
    st_stop.

(** [int(col.min())], [int(col.max())]: the extremum of an empty column is
    NaN, which [int] refuses. *)
Definition int_min (col : list Z) : Script Z :=
  match col with
  | [] => raise (ValueError "cannot convert float NaN to integer")
  | x :: l => ret (foldr Z.min x l)
  end.

Definition int_max (col : list Z) : Script Z :=
  match col with
  | [] => raise (ValueError "cannot convert float NaN to integer")
  | x :: l => ret (foldr Z.max x l)
  end.

(** The three values the sidebar yields. *)
Record FilterCriteria := mkCriteria {
  year_range : Z * Z;
  entity_filter : list Text;
  health_impact_filter : list Text
}.

(** Lines 70-76. *)
Definition sidebar (w : World) (data : DataFrame) : Script FilterCriteria :=
  try_except
    (year ← getitem "Year" Year data;
     lo ← int_min year;
     year ← getitem "Year" Year data;
     hi ← int_max year;
     year_range ← lift (slider w "Select Year Range" lo hi (2015, 2019));
     entity ← getitem "Entity" Entity data;
     entity_filter ← lift (multiselect w "Select Country" (unique entity) (unique entity));
     impact ← getitem "Health_Impact" Health_Impact data;
     health_impact_filter ←
       lift (multiselect w "Select Health Impact Type" (unique impact) (unique impact));
     ret (mkCriteria year_range entity_filter health_impact_filter))
    (λ e, Some (st_sidebar_error ("Error loading filters: " +:+ str e);; st_stop)).

(** Line 79.  The sidebar has read the three columns, so the lookups cannot
    fail here. *)
Definition filtered_data (data : DataFrame) (c : FilterCriteria) : DataFrame :=
  getitem_mask data
    (and_ (and_ (and_ (ge (Year <$> rows data) (year_range c).1)
                      (le (Year <$> rows data) (year_range c).2))
                (isin (Entity <$> rows data) (entity_filter c)))
          (isin (Health_Impact <$> rows data) (health_impact_filter c))).

(** The lambda of line 87; a missing cell is not 'High'. *)
Definition severity_color (x : Text) : Color :=
  if bool_decide (x = Some "High") then [255; 0; 0; 160] else [0; 255; 0; 160].

(** Line 87: [filtered_data['color'] = filtered_data['Health_Impact'].apply(...)],
    given the column read on the right-hand side. *)
Definition assign_color (filtered_data : DataFrame) (impact : list Text) : DataFrame :=
  setitem "color" (λ c, set_color (Some c)) (severity_color <$> impact) filtered_data.

(** Lines 85-99.  The assignment of line 87 writes into the frame bound to
    [filtered_data]; the frame the block leaves behind is its result. *)
Definition map_section (filtered_data : DataFrame) : Script DataFrame :=
  if negb (empty filtered_data) then
    lat ← getitem "latitude" latitude filtered_data;
    lon ← getitem "longitude" longitude filtered_data;
    let view_state := mkViewState (mean lat) (mean lon) 3 in
    impact ← getitem "Health_Impact" Health_Impact filtered_data;
    let filtered_data := assign_color filtered_data impact in
    let map_layer :=
      mkLayer "ScatterplotLayer" filtered_data "[longitude, latitude]" "color" 50000 true in
    let map_fig := mkDeck [map_layer] view_state "mapbox://styles/mapbox/light-v9" in
    st_pydeck_chart map_fig;;
    ret filtered_data
  else
    st_error "No data available for the selected year range and filters.";;
    ret filtered_data.

(** [df.groupby('Year')[name].sum().reset_index()] *)
Definition time_series (name : string) (field : Row → Number) (df : DataFrame)
    : Script (list (Z * Number)) :=
  if has_column "Year" df then
    if has_column name df then ret (groupby_sum Year field (rows df))
    else raise (KeyError ("Column not found: " +:+ name))
  else raise (KeyError "Year").

(** Lines 110-112. *)
Definition health_section (filtered_data : DataFrame) : Script (list (Z * Number)) :=
  health_data ← time_series "Premature_Death_Count" Premature_Death_Count filtered_data;
  st_plotly_chart (px_line health_data "Year" "Premature_Death_Count"
                           "Premature Death Count Over Time" true);;
  ret health_data.

(** Lines 117-119. *)
Definition env_section (filtered_data : DataFrame) : Script (list (Z * Number)) :=
  env_data ← time_series "Total discharges to Inland waters(million m3)"
                         Total_discharges filtered_data;
  st_plotly_chart (px_line env_data "Year" "Total discharges to Inland waters(million m3)"
                           "Discharges to Inland Waters Over Time" true);;
  ret env_data.

(** Lines 126-132. *)
Definition pie_section (filtered_data : DataFrame) : Script (gmap string nat) :=
  impact ← getitem "Health_Impact" Health_Impact filtered_data;
  let pie_data := value_counts impact in
  impact ← getitem "Health_Impact" Health_Impact filtered_data;
  let pie_data := value_counts impact in
  st_plotly_chart (px_pie pie_data "Count" "Health_Impact" "Health Impact Distribution");;
  ret pie_data.

(** The variables of the script when a run reaches its end. *)
Record State := mkState {
  var_data : DataFrame;
  var_filtered_data : DataFrame;
  var_health_data : list (Z * Number);
  var_env_data : list (Z * Number);
  var_pie_data : gmap string nat
}.

(** One run of the script. *)
Definition main (w : World) : Script State :=
  data ← load_data w;
  data ← add_coordinates data;
  c ← sidebar w data;
  filtered ← map_section (filtered_data data c);
  health_data ← health_section filtered;
  env_data ← env_section filtered;
  pie_data ← pie_section filtered;
  (if button w "Refresh Dashboard" then st_experimental_rerun else ret ());;
  ret (mkState data filtered health_data env_data pie_data).

End Hello.
Export Hello.

(** ** The criteria, in the words of the specification *)

(** A record satisfies the criteria when its year lies in the inclusive
    range, its entity is among the selected entities and its health impact
    among the selected categories. *)
Definition satisfies (c : FilterCriteria) (r : Row) : Prop :=
  ((year_range c).1 ≤ Year r ∧ Year r ≤ (year_range c).2)
  ∧ Entity r ∈ entity_filter c
  ∧ Health_Impact r ∈ health_impact_filter c.

#[global] Instance satisfies_dec c r : Decision (satisfies c r).
Proof. unfold satisfies. apply _. Defined.

(** The mask of line 79, row by row. *)
Definition row_mask (c : FilterCriteria) (r : Row) : bool :=
  ((year_range c).1 <=? Year r) && (Year r <=? (year_range c).2)
  && bool_decide (Entity r ∈ entity_filter c)
  && bool_decide (Health_Impact r ∈ health_impact_filter c).

(** The entity of a record is one the coordinate table knows. *)
Definition mapped (r : Row) : Prop :=
  match Entity r with
  | Some name => name ∈ dom country_coords
  | None => False
  end.

#[global] Instance mapped_dec r : Decision (mapped r).
Proof. unfold mapped. destruct (Entity r); apply _. Defined.

(** A row after lines 37-38 have run over it. *)
Definition geocoded (r : Row) : Row :=
  set_longitude (coords_get (Entity r)).2 (set_latitude (coords_get (Entity r)).1 r).

(** A row after line 87 has run over it. *)
Definition colored (r : Row) : Row :=
  set_color (Some (severity_color (Health_Impact r))) r.

(** The view after line 87, and the chart lines 86-97 build from a view. *)
Definition colored_view (view : DataFrame) : DataFrame :=
  mkFrame (add_column "color" (columns view)) (colored <$> rows view).

Definition map_of (view : DataFrame) : Deck :=
  mkDeck
    [mkLayer "ScatterplotLayer" (colored_view view) "[longitude, latitude]" "color" 50000 true]
    (mkViewState (mean (latitude <$> rows view)) (mean (longitude <$> rows view)) 3)
    "mapbox://styles/mapbox/light-v9".

(** The counts of a category aggregation, added up over its categories. *)
Definition total_count (counts : gmap string nat) : nat :=
  map_fold (λ _ n acc, (n + acc)%nat) 0%nat counts.

(** The integer an int64 cell holds, and the sum of a column of them as
    integers, without wrapping. *)
Definition int_value (v : Number) : Z :=
  match v with Int64 z => z | Float64 _ => 0 end.

Definition exact_sum (col : list Number) : Z := foldr Z.add 0 (int_value <$> col).





(** A record has a health impact: the cell is not missing. *)
Definition labelled (r : Row) : Prop := is_Some (Health_Impact r).

#[global] Instance labelled_dec r : Decision (labelled r).
Proof. unfold labelled. apply _. Defined.

(** ** A small dataset

    The three rows of the specification's example and one row of an entity
    the coordinate table does not know.  The death counts are whole numbers,
    the discharges a float64 column. *)

Module Example.

Definition header : list string :=
  ["Entity"; "Year"; "Health_Impact"; "Premature_Death_Count";
   "Total discharges to Inland waters(million m3)"].

Definition australia_2015 : Row :=
  mkRow (Some "Australia") 2015 (Some "High") (Int64 10) (Float64 120.5) None None None.
Definition australia_2016 : Row :=
  mkRow (Some "Australia") 2016 (Some "Low") (Int64 5) (Float64 80.25) None None None.
Definition belgium_2015 : Row :=
  mkRow (Some "Belgium") 2015 (Some "High") (Int64 7) (Float64 40) None None None.
Definition atlantis_2015 : Row :=
  mkRow (Some "Atlantis") 2015 (Some "Low") (Int64 2) (Float64 9.75) None None None.

Definition dataset : DataFrame :=
  mkFrame header [australia_2015; australia_2016; belgium_2015; atlantis_2015].

(** The file as [read_csv] finds it. *)
Inductive File := present (data : DataFrame) | missing | unparsable.

Definition parser_error : Exception :=
  OtherError "ParserError" "Error tokenizing data".

(** A world around a file and a selection made in the sidebar; the button
    is not pressed. *)
Definition world (f : File) (c : FilterCriteria) : World :=
  mkWorld
    (λ path, match f with
             | present data => inr data
             | missing => inl (FileNotFoundError ("No such file or directory: " +:+ path))
             | unparsable => inl parser_error
             end)
    (λ _ _ _ _, inr (year_range c))
    (λ label _ _, inr (if bool_decide (label = "Select Country")
                       then entity_filter c else health_impact_filter c))
    (λ _, false).

Definition year_2015 : FilterCriteria :=
  mkCriteria (2015, 2015) [Some "Australia"; Some "Belgium"; Some "Atlantis"]
             [Some "High"; Some "Low"].

(** The criteria of the specification's example. *)
Definition spec_criteria : FilterCriteria :=
  mkCriteria (2015, 2015) [Some "Australia"; Some "Belgium"] [Some "High"; Some "Low"].

Definition no_entity : FilterCriteria :=
  mkCriteria (2015, 2019) [] [Some "High"; Some "Low"].

(** The dataset after lines 36-41. *)
Definition enriched : DataFrame :=
  mkFrame (header ++ ["latitude"; "longitude"])
    [set_longitude (Some 133.7751%float) (set_latitude (Some (-25.2744)%float) australia_2015);
     set_longitude (Some 133.7751%float) (set_latitude (Some (-25.2744)%float) australia_2016);
     set_longitude (Some 4.4699%float) (set_latitude (Some 50.5039%float) belgium_2015);
     atlantis_2015].

(** The run over the dataset with the 2015 selection. *)
Definition run_2015 : Result State * list Element :=
  main (world (present dataset) year_2015) [].

End Example.

(** ** Notions for whole runs *)

(** A piece of script that leaves the page alone and does not end the run
    by [st.stop] or a rerun. *)
Definition quiet {A} (m : Script A) : Prop :=
  ∀ page, ∃ r, m page = (r, page) ∧ ∀ how, r ≠ Ended how.

(** The same world with the button pressed, or not. *)
Definition set_button (pressed : bool) (w : World) : World :=
  mkWorld (read_csv w) (slider w) (multiselect w) (λ _, pressed).

(** The dataset after lines 36-41. *)
Definition geocoded_frame (data : DataFrame) : DataFrame :=
  mkFrame (add_column "longitude" (add_column "latitude" (columns data)))
          (geocoded <$> rows data).

(** What lines 85-99 leave in [filtered_data] and put on the page. *)
Definition rendered_view (view : DataFrame) : DataFrame :=
  if empty view then view else colored_view view.

Definition first_element (view : DataFrame) : Element :=
  if empty view
  then error "No data available for the selected year range and filters."
  else pydeck_chart (map_of view).

(** The figures of lines 111, 118 and 131. *)
Definition health_chart (health_data : list (Z * Number)) : Element :=
  plotly_chart (px_line health_data "Year" "Premature_Death_Count"
                        "Premature Death Count Over Time" true).

Definition env_chart (env_data : list (Z * Number)) : Element :=
  plotly_chart (px_line env_data "Year" "Total discharges to Inland waters(million m3)"
                        "Discharges to Inland Waters Over Time" true).

Definition pie_chart (pie_data : gmap string nat) : Element :=
  plotly_chart (px_pie pie_data "Count" "Health_Impact" "Health Impact Distribution").

(** The year of a record lies in the selected range. *)
Definition in_year_range (c : FilterCriteria) (r : Row) : Prop :=
  (year_range c).1 ≤ Year r ∧ Year r ≤ (year_range c).2.

#[global] Instance in_year_range_dec c r : Decision (in_year_range c r).
Proof. unfold in_year_range. apply _. Defined.

(** [c1] selects no more than [c2]: a year range inside the other's, and
    entities and categories among the other's. *)
Definition narrower (c1 c2 : FilterCriteria) : Prop :=
  (year_range c2).1 ≤ (year_range c1).1 ∧ (year_range c1).2 ≤ (year_range c2).2
  ∧ entity_filter c1 ⊆ entity_filter c2
  ∧ health_impact_filter c1 ⊆ health_impact_filter c2.

(** ** Further datasets and worlds *)

Module Cases.


(** The small dataset under a header that lacks the year. *)
Definition dataset_no_year : DataFrame :=
  mkFrame ["Entity"; "Health_Impact"; "Premature_Death_Count";
           "Total discharges to Inland waters(million m3)"]
          (rows Example.dataset).

(** A file with the header line only. *)
Definition dataset_no_rows : DataFrame := mkFrame Example.header [].

(** A world in which nobody touches the sidebar: every widget yields its
    default. *)
Definition untouched (data : DataFrame) : World :=
  mkWorld (λ _, inr data) (λ _ _ _ value, inr value) (λ _ _ default, inr default)
          (λ _, false).



(** The three 2015 records of the small dataset, the health impact of
    Belgium's left blank in the file. *)
Definition dataset_blank_label : DataFrame :=
  mkFrame Example.header
    [Example.australia_2015;
     mkRow (Some "Belgium") 2015 None (Int64 7) (Float64 40) None None None;
     Example.atlantis_2015].

(** The defaults of the widgets over that dataset: every entity and every
    category of its columns, the missing one too. *)
Definition all_selected : FilterCriteria :=
  mkCriteria (2015, 2019) [Some "Australia"; Some "Belgium"; Some "Atlantis"]
             [Some "High"; None; Some "Low"].



End Cases.

(** * Properties *)

(** ** Running a script *)

Lemma bind_done {A B} (m : Script A) (k : A → Script B) page a page' :
  m page = (Done a, page') → (m ≫= k) page = k a page'.
Proof. intros Hm. unfold mbind, script_bind, bind. by rewrite Hm. Qed.

Lemma bind_ended {A B} (m : Script A) (k : A → Script B) page how page' :
  m page = (Ended how, page') → (m ≫= k) page = (Ended how, page').
Proof. intros Hm. unfold mbind, script_bind, bind. by rewrite Hm. Qed.

Lemma bind_raised {A B} (m : Script A) (k : A → Script B) page e page' :
  m page = (Raised e, page') → (m ≫= k) page = (Raised e, page').
Proof. intros Hm. unfold mbind, script_bind, bind. by rewrite Hm. Qed.

Lemma bind_done_inv {A B} (m : Script A) (k : A → Script B) page b page'' :
  (m ≫= k) page = (Done b, page'') →
  ∃ a page', m page = (Done a, page') ∧ k a page' = (Done b, page'').
Proof.
  unfold mbind, script_bind, bind.
  destruct (m page) as [[a|how|e] page']; [eauto|done|done].
Qed.

Lemma lift_done_inv {A} (r : Exception + A) page a page' :
  lift r page = (Done a, page') → r = inr a ∧ page' = page.
Proof. destruct r; [done|]. by intros [= <- <-]. Qed.

Lemma int_min_done_inv col page z page' :
  int_min col page = (Done z, page') → col ≠ [] ∧ page' = page.
Proof. destruct col; [done|]. by intros [= <- <-]. Qed.

Lemma int_max_done_inv col page z page' :
  int_max col page = (Done z, page') → col ≠ [] ∧ page' = page.
Proof. destruct col; [done|]. by intros [= <- <-]. Qed.

(** ** Columns *)

Lemma has_column_true name df : has_column name df = true ↔ name ∈ columns df.
Proof. unfold has_column. apply bool_decide_eq_true. Qed.

Lemma has_column_false name df : has_column name df = false ↔ name ∉ columns df.
Proof. unfold has_column. apply bool_decide_eq_false. Qed.

Lemma elem_of_add_column name name' cols :
  name' ∈ add_column name cols ↔ name' = name ∨ name' ∈ cols.
Proof.
  unfold add_column. case_bool_decide as Hin.
  - split; [tauto|]. by intros [->|?].
  - rewrite elem_of_app, list_elem_of_singleton. tauto.
Qed.

Lemma getitem_present {A} name (field : Row → A) df page :
  name ∈ columns df → getitem name field df page = (Done (field <$> rows df), page).
Proof. intros Hin. unfold getitem. by rewrite (proj2 (has_column_true _ _) Hin). Qed.

Lemma setitem_rows {A B} name (set : B → Row → Row) (f : A → B) (field : Row → A) df :
  rows (setitem name set (f <$> (field <$> rows df)) df)
  = (λ r, set (f (field r)) r) <$> rows df.
Proof.
  unfold setitem. cbn [rows]. rewrite <- list_fmap_compose.
  by rewrite zip_with_fmap_l, zip_with_diag.
Qed.

Lemma getitem_done_inv {A} name (field : Row → A) df page col page' :
  getitem name field df page = (Done col, page') →
  name ∈ columns df ∧ col = field <$> rows df ∧ page' = page.
Proof.
  unfold getitem. destruct (has_column name df) eqn:Hcol; [|done].
  apply has_column_true in Hcol. by intros [= <- <-].
Qed.

(** ** Selecting rows *)

Section Select.
Context {A : Type}.
Implicit Types (l : list A) (m : list bool).

Lemma select_sublist m l : select m l `sublist_of` l.
Proof.
  revert m. induction l as [|x l IH]; intros [|[] m]; simpl;
    try apply sublist_nil_l.
  - by apply sublist_skip.
  - by apply sublist_cons.
Qed.

Lemma select_fmap (p : A → bool) l :
  select (p <$> l) l = filter (λ x, p x) l.
Proof.
  induction l as [|x l IH]; [done|].
  rewrite fmap_cons, filter_cons. cbn [select]. rewrite IH.
  destruct (p x); by case_decide.
Qed.

Lemma zip_with_fmap_same {B C D} (f : B → C → D) (g : A → B) (h : A → C) l :
  zip_with f (g <$> l) (h <$> l) = (λ x, f (g x) (h x)) <$> l.
Proof.
  induction l as [|x l IH]; [done|].
  rewrite !fmap_cons. cbn [zip_with]. by rewrite IH.
Qed.

End Select.

Lemma row_mask_satisfies c r : row_mask c r ↔ satisfies c r.
Proof.
  unfold row_mask, satisfies.
  rewrite !andb_True, !bool_decide_spec, !Is_true_true, !Z.leb_le. tauto.
Qed.

Lemma filtered_data_rows data c :
  rows (filtered_data data c) = filter (satisfies c) (rows data).
Proof.
  unfold filtered_data, getitem_mask, and_, ge, le, isin. simpl.
  rewrite <- !list_fmap_compose.
  rewrite !(zip_with_fmap_same (A:=Row)).
  rewrite (select_fmap (A:=Row)).
  apply list_filter_iff. intros r. apply (row_mask_satisfies c r).
Qed.

(** C1. For every dataset and criteria, the filtered view holds exactly the
    records whose year lies in the inclusive range, whose entity is among
    the selected entities and whose health impact is among the selected
    categories, in the order of the dataset; no other record appears. *)
Theorem filter_engine_exact (data : DataFrame) (c : FilterCriteria) :
  rows (filtered_data data c) = filter (satisfies c) (rows data)
  ∧ (∀ r, r ∈ rows (filtered_data data c) ↔ r ∈ rows data ∧ satisfies c r).
Proof.
  split; [apply filtered_data_rows|].
  intros r. rewrite filtered_data_rows, list_elem_of_filter. tauto.
Qed.

(** C6. For every criteria the filtered view is a part of the dataset: its
    rows are rows of the dataset, taken in order and no more often than they
    occur there, so it has at most as many rows; the header is the
    dataset's. *)
Theorem filtered_view_subset (data : DataFrame) (c : FilterCriteria) :
  rows (filtered_data data c) `sublist_of` rows data
  ∧ (∀ r, r ∈ rows (filtered_data data c) → r ∈ rows data)
  ∧ (length (rows (filtered_data data c)) ≤ length (rows data))%nat
  ∧ columns (filtered_data data c) = columns data.
Proof.
  assert (Hsub : rows (filtered_data data c) `sublist_of` rows data)
    by apply select_sublist.
  split_and!; [done| |by apply sublist_length|done].
  intros r Hr. by eapply elem_of_sublist.
Qed.

(** ** Arithmetic on cells *)

Lemma wrap64_add_l a b : wrap64 (wrap64 a + b) = wrap64 (a + b).
Proof.
  unfold wrap64. f_equal.
  replace ((a + 2 ^ 63) mod 2 ^ 64 - 2 ^ 63 + b + 2 ^ 63)
    with ((a + 2 ^ 63) mod 2 ^ 64 + b) by lia.
  rewrite Zplus_mod_idemp_l. f_equal. lia.
Qed.



Lemma wrap64_range z : - 2 ^ 63 ≤ wrap64 z < 2 ^ 63.
Proof.
  unfold wrap64. pose proof (Z.mod_pos_bound (z + 2 ^ 63) (2 ^ 64) ltac:(done)).
  change (2 ^ 64) with (2 * 2 ^ 63) in *. lia.
Qed.

Lemma wrap64_id z : - 2 ^ 63 ≤ z < 2 ^ 63 → wrap64 z = z.
Proof.
  intros Hz. unfold wrap64. rewrite Z.mod_small; [lia|].
  change (2 ^ 64) with (2 * 2 ^ 63). lia.
Qed.

Lemma exact_sum_cons v (col : list Number) :
  exact_sum (v :: col) = int_value v + exact_sum col.
Proof. done. Qed.

Lemma exact_sum_app (col1 col2 : list Number) :
  exact_sum (col1 ++ col2) = exact_sum col1 + exact_sum col2.
Proof.
  induction col1 as [|v col1 IH]; [done|].
  rewrite <- app_comm_cons, !exact_sum_cons, IH. lia.
Qed.

Lemma exact_sum_Permutation (col1 col2 : list Number) :
  col1 ≡ₚ col2 → exact_sum col1 = exact_sum col2.
Proof.
  induction 1 as [|x l1 l2 _ IH|x y l|l1 l2 l3 _ IH1 _ IH2];
    rewrite ?exact_sum_cons; [done|by rewrite IH|lia|congruence].
Qed.

Lemma dtype_of_int64 (col : list Number) : dtype_of col = int64 ↔ Forall is_int64 col.
Proof.
  unfold dtype_of. rewrite <- forallb_True.
  destruct (forallb is_int64 col); simpl; split; done.
Qed.

Lemma accumulate_int64 a v :
  is_int64 v → accumulate (Int64 a) v = Int64 (wrap64 (a + int_value v)).
Proof. by destruct v. Qed.

Lemma sum_as_snoc t (col : list Number) v :
  sum_as t (col ++ [v]) = accumulate (sum_as t col) v.
Proof. unfold sum_as. by rewrite foldl_app. Qed.

(** The sum of an int64 column is the sum of its integers, wrapped into 64
    bits. *)
Lemma sum_as_int64 (col : list Number) :
  Forall is_int64 col → sum_as int64 col = Int64 (wrap64 (exact_sum col)).
Proof.
  induction col as [|v col IH] using rev_ind; [done|].
  intros [Hcol [Hv _]%Forall_cons]%Forall_app.
  rewrite sum_as_snoc, IH, accumulate_int64, wrap64_add_l by done.
  rewrite exact_sum_app, exact_sum_cons. do 2 f_equal. unfold exact_sum. simpl. lia.
Qed.




(** ** Grouping by year *)

Section GroupBy.
Context (start : Number).
Implicit Types (y k : Z) (v s : Number) (g : list (Z * Number)).

Lemma add_to_group_keys y v g k :
  k ∈ (add_to_group start y v g).*1 ↔ k = y ∨ k ∈ g.*1.
Proof.
  induction g as [|[y' s] rest IH]; simpl.
  - rewrite list_elem_of_singleton, elem_of_nil. tauto.
  - destruct (Z.ltb_spec y y'); simpl; [by rewrite !elem_of_cons|].
    destruct (Z.eqb_spec y y') as [->|]; simpl.
    + rewrite !elem_of_cons. tauto.
    + rewrite !elem_of_cons, IH. tauto.
Qed.

Lemma add_to_group_sorted y v g :
  StronglySorted Z.lt g.*1 → StronglySorted Z.lt (add_to_group start y v g).*1.
Proof.
  induction g as [|[y' s] rest IH]; simpl; intros Hs.
  - repeat constructor.
  - inversion Hs as [|? ? Hrest Hall]; subst.
    destruct (Z.ltb_spec y y') as [Hlt|Hge].
    + simpl. constructor; [done|]. constructor; [done|].
      eapply Forall_impl; [exact Hall|]. simpl. intros k ?. lia.
    + destruct (Z.eqb_spec y y') as [->|Hne]; simpl; [done|].
      constructor; [by apply IH|].
      apply Forall_forall. intros k [->|Hk]%add_to_group_keys; [lia|].
      by eapply Forall_forall in Hall.
Qed.

Lemma sorted_keys_above y y' g :
  y < y' → Forall (Z.lt y') g.*1 → (list_to_map g : gmap Z Number) !! y = None.
Proof.
  intros Hlt Hall. apply not_elem_of_list_to_map_1. intros Hin.
  eapply Forall_forall in Hall; [|done]. lia.
Qed.

Lemma add_to_group_map y v g :
  StronglySorted Z.lt g.*1 →
  list_to_map (add_to_group start y v g)
  =@{gmap Z Number}
    <[y := accumulate (default start ((list_to_map g : gmap Z Number) !! y)) v]>
      (list_to_map g).
Proof.
  induction g as [|[y' s] rest IH]; simpl; intros Hs; [done|].
  inversion Hs as [|? ? Hrest Hall]; subst.
  destruct (Z.ltb_spec y y') as [Hlt|Hge].
  - simpl. rewrite lookup_insert_ne by lia.
    by rewrite (sorted_keys_above y y' rest).
  - destruct (Z.eqb_spec y y') as [->|Hne]; simpl.
    + by rewrite lookup_insert_eq, insert_insert_eq.
    + rewrite IH by done. rewrite lookup_insert_ne by done.
      by rewrite insert_insert_ne.
Qed.

Context (key : Row → Z) (value : Row → Number).

Lemma group_rows_snoc (l : list Row) r :
  group_rows start key value (l ++ [r])
  = add_to_group start (key r) (value r) (group_rows start key value l).
Proof. unfold group_rows. by rewrite foldl_app. Qed.

Lemma group_rows_sorted (l : list Row) :
  StronglySorted Z.lt (group_rows start key value l).*1.
Proof.
  induction l as [|r l IH] using rev_ind; [constructor|].
  rewrite group_rows_snoc. by apply add_to_group_sorted.
Qed.

Lemma group_rows_keys (l : list Row) k :
  k ∈ (group_rows start key value l).*1 ↔ k ∈ key <$> l.
Proof.
  induction l as [|r l IH] using rev_ind; [done|].
  rewrite group_rows_snoc, add_to_group_keys, IH, fmap_app.
  change (key <$> [r]) with [key r].
  rewrite elem_of_app, list_elem_of_singleton. tauto.
Qed.

Lemma filter_key_absent (l : list Row) y :
  y ∉ key <$> l → filter (λ r, key r = y) l = [].
Proof.
  induction l as [|r l IH]; [done|].
  rewrite fmap_cons, not_elem_of_cons, filter_cons. intros [Hne Hl].
  case_decide; [congruence|]. by apply IH.
Qed.

Lemma group_rows_lookup (l : list Row) y :
  (list_to_map (group_rows start key value l) : gmap Z Number) !! y
  = if decide (y ∈ key <$> l)
    then Some (foldl accumulate start (value <$> filter (λ r, key r = y) l))
    else None.
Proof.
  induction l as [|r l IH] using rev_ind.
  { rewrite decide_False; [done|]. apply not_elem_of_nil. }
  rewrite group_rows_snoc, add_to_group_map by apply group_rows_sorted.
  rewrite fmap_app, filter_app, fmap_app, foldl_app.
  change (key <$> [r]) with [key r].
  rewrite filter_cons, filter_nil.
  destruct (decide (key r = y)) as [<-|Hne].
  - rewrite lookup_insert_eq, IH.
    rewrite (decide_True (P := key r ∈ (key <$> l) ++ [key r]))
      by (rewrite elem_of_app, list_elem_of_singleton; tauto).
    f_equal. change (value <$> [r]) with [value r]. cbn [foldl].
    case_decide as Hin; simpl; [done|].
    by rewrite (filter_key_absent l (key r) Hin).
  - rewrite lookup_insert_ne, IH by done.
    change (value <$> []) with (@nil Number). cbn [foldl].
    destruct (decide (y ∈ key <$> l)) as [Hin|Hin],
             (decide (y ∈ (key <$> l) ++ [key r])) as [Hin'|Hin']; try done.
    + exfalso. apply Hin', elem_of_app. by left.
    + exfalso. apply elem_of_app in Hin' as [?|Heq%list_elem_of_singleton];
        [done|congruence].
Qed.

End GroupBy.

Lemma sorted_lt_NoDup (l : list Z) : StronglySorted Z.lt l → NoDup l.
Proof.
  induction 1 as [|x l _ IH Hall]; constructor; [|done].
  intros Hin. eapply Forall_forall in Hall; [|done]. lia.
Qed.

Section GroupBySum.
Context (key : Row → Z) (value : Row → Number).

Lemma groupby_sum_sorted (l : list Row) :
  StronglySorted Z.lt (groupby_sum key value l).*1.
Proof. apply group_rows_sorted. Qed.

Lemma groupby_sum_keys (l : list Row) k :
  k ∈ (groupby_sum key value l).*1 ↔ k ∈ key <$> l.
Proof. apply group_rows_keys. Qed.

Lemma groupby_sum_elem (l : list Row) y s :
  (y, s) ∈ groupby_sum key value l
  ↔ y ∈ key <$> l
    ∧ s = sum_as (dtype_of (value <$> l)) (value <$> filter (λ r, key r = y) l).
Proof.
  assert (Hnd : NoDup (groupby_sum key value l).*1)
    by apply sorted_lt_NoDup, groupby_sum_sorted.
  rewrite (elem_of_list_to_map (M := gmap Z) _ _ _ Hnd).
  unfold groupby_sum. rewrite group_rows_lookup. unfold sum_as.
  case_decide; split; try tauto; try congruence.
  - by intros [= <-].
  - by intros [_ ->].
Qed.






End GroupBySum.




(** ** Counting by category *)

Section ValueCounts.
Implicit Types (col : list Text) (x : string) (counts : gmap string nat).

Lemma value_counts_snoc col cell :
  value_counts (col ++ [cell])
  = match cell with
    | Some x => <[x := S (default O (value_counts col !! x))]> (value_counts col)
    | None => value_counts col
    end.
Proof. unfold value_counts. by rewrite foldl_app. Qed.

Lemma filter_eq_absent col x : Some x ∉ col → filter (λ y, y = Some x) col = [].
Proof.
  induction col as [|y col IH]; [done|].
  rewrite not_elem_of_cons, filter_cons. intros [Hne Hcol].
  case_decide; [congruence|]. by apply IH.
Qed.

Lemma value_counts_lookup col x :
  value_counts col !! x
  = if decide (Some x ∈ col)
    then Some (length (filter (λ y, y = Some x) col)) else None.
Proof.
  induction col as [|cell col IH] using rev_ind.
  { rewrite decide_False; [done|]. apply not_elem_of_nil. }
  rewrite value_counts_snoc, filter_app, length_app, filter_cons, filter_nil.
  destruct cell as [z|].
  - destruct (decide (z = x)) as [->|Hne].
    + rewrite lookup_insert_eq, IH, (decide_True (P := Some x = Some x)) by done.
      rewrite (decide_True (P := Some x ∈ col ++ [Some x]))
        by (rewrite elem_of_app, list_elem_of_singleton; tauto).
      f_equal. simpl. case_decide as Hin; simpl; [lia|].
      by rewrite (filter_eq_absent col x Hin).
    + rewrite lookup_insert_ne, IH, (decide_False (P := Some z = Some x)) by congruence.
      simpl. rewrite Nat.add_0_r.
      destruct (decide (Some x ∈ col)) as [Hin|Hin],
               (decide (Some x ∈ col ++ [Some z])) as [Hin'|Hin']; try done.
      * exfalso. apply Hin', elem_of_app. by left.
      * exfalso. apply elem_of_app in Hin' as [?|Heq%list_elem_of_singleton];
          [done|congruence].
  - rewrite IH, (decide_False (P := None = Some x)) by done. simpl. rewrite Nat.add_0_r.
    destruct (decide (Some x ∈ col)) as [Hin|Hin],
             (decide (Some x ∈ col ++ [None])) as [Hin'|Hin']; try done.
    + exfalso. apply Hin', elem_of_app. by left.
    + exfalso. apply elem_of_app in Hin' as [?|Heq%list_elem_of_singleton];
        [done|congruence].
Qed.

Lemma total_count_insert counts x n :
  counts !! x = None → total_count (<[x := n]> counts) = (n + total_count counts)%nat.
Proof.
  intros Hx. unfold total_count.
  rewrite map_fold_insert_L; [done| |done]. intros. lia.
Qed.

Lemma total_count_increment counts x :
  total_count (<[x := S (default O (counts !! x))]> counts) = S (total_count counts).
Proof.
  destruct (counts !! x) as [n|] eqn:Hx; simpl.
  - rewrite <- (insert_delete_eq counts).
    rewrite total_count_insert by apply lookup_delete_eq.
    rewrite <- (insert_delete_id counts x n Hx) at 2.
    rewrite total_count_insert by apply lookup_delete_eq. done.
  - by rewrite total_count_insert.
Qed.

(** The counts add up to the number of cells that are not missing. *)
Lemma value_counts_total col :
  total_count (value_counts col) = length (filter is_Some col).
Proof.
  induction col as [|cell col IH] using rev_ind; [done|].
  rewrite value_counts_snoc, filter_app, length_app, filter_cons, filter_nil.
  destruct cell as [z|].
  - rewrite total_count_increment, IH, decide_True by done. simpl. lia.
  - rewrite IH, decide_False by (by intros [? [=]]). simpl. lia.
Qed.

End ValueCounts.

Lemma filter_fmap_length {A B} (f : A → B) (P : B → Prop) `{∀ y, Decision (P y)}
    (l : list A) :
  length (filter P (f <$> l)) = length (filter (λ x, P (f x)) l).
Proof.
  induction l as [|x l IH]; [done|].
  rewrite fmap_cons, !filter_cons. case_decide; simpl; by rewrite IH.
Qed.

Lemma filter_all {A} (P : A → Prop) `{∀ x, Decision (P x)} (l : list A) :
  (∀ x, x ∈ l → P x) → filter P l = l.
Proof.
  induction l as [|x l IH]; [done|]. intros Hall.
  rewrite filter_cons, decide_True by (apply Hall; left).
  f_equal. apply IH. intros y Hy. apply Hall. by right.
Qed.

Lemma filter_length_all {A} (P : A → Prop) `{∀ x, Decision (P x)} (l : list A) :
  (∀ x, x ∈ l → P x) ↔ length (filter P l) = length l.
Proof.
  split.
  - intros Hall. by rewrite filter_all.
  - intros Heq x Hx. destruct (decide (P x)) as [|Hno]; [done|exfalso].
    apply list_elem_of_split in Hx as (l1 & l2 & ->).
    rewrite filter_app, filter_cons, decide_False, !length_app in Heq by done.
    cbn [length] in Heq.
    pose proof (length_filter P l1). pose proof (length_filter P l2). lia.
Qed.

Lemma value_counts_labelled (view : list Row) :
  total_count (value_counts (Health_Impact <$> view)) = length (filter labelled view).
Proof.
  rewrite value_counts_total. by rewrite (filter_fmap_length Health_Impact is_Some).
Qed.

(** C3, as the code has it. For every view, the category aggregation has an
    entry exactly for the health-impact categories that occur in the view,
    and each entry is the number of rows of its category.  A row whose
    health impact is missing belongs to no category and is not counted: the
    counts over all categories add up to the number of rows that have a
    health impact, which is the number of rows of the view when none is
    missing and less otherwise. *)
Theorem category_aggregation (view : list Row) :
  let out := value_counts (Health_Impact <$> view) in
  (∀ x, x ∈ dom out ↔ ∃ r, r ∈ view ∧ Health_Impact r = Some x)
  ∧ (∀ x n, out !! x = Some n ↔
       (∃ r, r ∈ view ∧ Health_Impact r = Some x)
       ∧ n = length (filter (λ r, Health_Impact r = Some x) view))
  ∧ total_count out = length (filter labelled view)
  ∧ ((∀ r, r ∈ view → labelled r) ↔ total_count out = length view).
Proof.
  intros out.
  assert (Hlen : ∀ x, length (filter (λ y, y = Some x) (Health_Impact <$> view))
                      = length (filter (λ r, Health_Impact r = Some x) view))
    by (intros x; by rewrite (filter_fmap_length Health_Impact (λ y, y = Some x))).
  assert (Hin : ∀ x, Some x ∈ Health_Impact <$> view
                     ↔ ∃ r, r ∈ view ∧ Health_Impact r = Some x).
  { intros x. rewrite list_elem_of_fmap. split; intros (r & ? & ?); by exists r. }
  assert (Hlook : ∀ x n, out !! x = Some n ↔
            (∃ r, r ∈ view ∧ Health_Impact r = Some x)
            ∧ n = length (filter (λ r, Health_Impact r = Some x) view)).
  { intros x n. unfold out. rewrite value_counts_lookup, <- Hin, <- Hlen.
    case_decide; split; try tauto; try congruence.
    - intros [= <-]. done.
    - intros [_ ->]. done. }
  assert (Htotal : total_count out = length (filter labelled view))
    by apply value_counts_labelled.
  split_and!; [|done|done|].
  - intros x. rewrite elem_of_dom. unfold is_Some. setoid_rewrite Hlook.
    split; [by intros (n & ? & _)|]. intros Hx. eexists. by split.
  - rewrite Htotal. apply filter_length_all.
Qed.

(** C3 as the specification words it fails on a view with a blank health
    impact.  With nobody touching the sidebar the second multiselect is
    created with the categories of the column, the missing one among them,
    and yields them; line 79 keeps the row with the blank; the view has
    three rows and the counts of the pie add up to two. *)
Lemma blank_label_not_counted :
  ∃ s page',
    main (Cases.untouched Cases.dataset_blank_label) [] = (Done s, page')
    ∧ sidebar (Cases.untouched Cases.dataset_blank_label) (var_data s) []
      = (Done Cases.all_selected, [])
    ∧ Health_Impact <$> rows (filtered_data (var_data s) Cases.all_selected)
      = [Some "High"; None; Some "Low"]
    ∧ Health_Impact <$> rows (var_filtered_data s) = [Some "High"; None; Some "Low"]
    ∧ var_pie_data s = value_counts (Health_Impact <$> rows (var_filtered_data s))
    ∧ var_pie_data s !! "High" = Some 1%nat ∧ var_pie_data s !! "Low" = Some 1%nat
    ∧ total_count (var_pie_data s) = 2%nat
    ∧ length (rows (var_filtered_data s)) = 3%nat
    ∧ total_count (var_pie_data s) ≠ length (rows (var_filtered_data s)).
Proof.
  do 2 eexists. split; [vm_compute; reflexivity|].
  split_and!; try (vm_compute; reflexivity).
  vm_compute. intros [=].
Qed.

Lemma category_aggregation_example :
  let view := rows (filtered_data Cases.dataset_blank_label Cases.all_selected) in
  let out := value_counts (Health_Impact <$> view) in
  (∀ x, x ∈ dom out ↔ ∃ r, r ∈ view ∧ Health_Impact r = Some x)
  ∧ (∀ x n, out !! x = Some n ↔
       (∃ r, r ∈ view ∧ Health_Impact r = Some x)
       ∧ n = length (filter (λ r, Health_Impact r = Some x) view))
  ∧ total_count out = length (filter labelled view)
  ∧ ((∀ r, r ∈ view → labelled r) ↔ total_count out = length view).
Proof.
  apply (category_aggregation
           (rows (filtered_data Cases.dataset_blank_label Cases.all_selected))).
Defined.

(** ** The loader *)

Section Loader.
Context (w : World) (page : list Element).

Lemma load_data_found data :
  read_csv w data_path = inr data → load_data w page = (Done data, page).
Proof. intros Hread. unfold load_data, try_except. by rewrite Hread. Qed.

Lemma load_data_not_found msg :
  read_csv w data_path = inl (FileNotFoundError msg) →
  load_data w page
  = (Ended stop,
     page ++ [error ("Failed to load data from " +:+ data_path +:+
                     ". Please check the file path and ensure the file exists.")]).
Proof. intros Hread. unfold load_data, try_except. by rewrite Hread. Qed.

Lemma load_data_other e :
  read_csv w data_path = inl e → (∀ msg, e ≠ FileNotFoundError msg) →
  load_data w page = (Raised e, page).
Proof.
  intros Hread Hne. unfold load_data, try_except. rewrite Hread.
  destruct e; try done. by destruct (Hne msg).
Qed.

Lemma load_data_done data page' :
  load_data w page = (Done data, page') →
  read_csv w data_path = inr data ∧ page' = page.
Proof.
  unfold load_data, try_except.
  destruct (read_csv w data_path) as [e|data0]; simpl.
  - destruct e; simpl; intros [=].
  - by intros [= -> ->].
Qed.

Lemma main_load_failed how page' :
  load_data w page = (Ended how, page') → main w page = (Ended how, page').
Proof. apply bind_ended. Qed.

Lemma main_load_raised e page' :
  load_data w page = (Raised e, page') → main w page = (Raised e, page').
Proof. apply bind_raised. Qed.

End Loader.

(** C4, as the code has it. The loader returns the dataset [read_csv]
    yields, whole.  When the file does not exist it puts an error on the
    page and stops the run.  Any other failure of [read_csv] (a file that
    cannot be parsed among them) is not caught: the exception leaves the
    script, which shows nothing of its own and runs no further.  The loader
    returns no dataset but the one read. *)
Theorem loader_outcomes (w : World) (page : list Element) :
  (∀ data, read_csv w data_path = inr data → load_data w page = (Done data, page))
  ∧ (∀ msg, read_csv w data_path = inl (FileNotFoundError msg) →
       let shown :=
         page ++ [error "Failed to load data from data/integrated_water_related_data (1) (1).csv. Please check the file path and ensure the file exists."] in
       load_data w page = (Ended stop, shown) ∧ main w page = (Ended stop, shown))
  ∧ (∀ e, read_csv w data_path = inl e → (∀ msg, e ≠ FileNotFoundError msg) →
       load_data w page = (Raised e, page) ∧ main w page = (Raised e, page))
  ∧ (∀ data page', load_data w page = (Done data, page') →
       read_csv w data_path = inr data ∧ page' = page).
Proof.
  split_and!.
  - apply load_data_found.
  - intros msg Hread shown.
    pose proof (load_data_not_found w page msg Hread) as Hload.
    split; [exact Hload|]. by apply main_load_failed.
  - intros e Hread Hne.
    pose proof (load_data_other w page e Hread Hne) as Hload.
    split; [exact Hload|]. by apply main_load_raised.
  - apply load_data_done.
Qed.

(** C4 as the specification words it fails on a file that exists and cannot
    be parsed: the loader neither returns a dataset nor reports and stops;
    the parser's exception leaves the script and the page stays as it was. *)
Lemma loader_unparsable_file :
  let w := Example.world Example.unparsable Example.year_2015 in
  read_csv w data_path = inl Example.parser_error
  ∧ load_data w [] = (Raised Example.parser_error, [])
  ∧ main w [] = (Raised Example.parser_error, [])
  ∧ (∀ data page', load_data w [] ≠ (Done data, page'))
  ∧ (∀ page', load_data w [] ≠ (Ended stop, page')).
Proof. by split_and!. Qed.

Lemma loader_outcomes_example :
  load_data (Example.world (Example.present Example.dataset) Example.year_2015) []
  = (Done Example.dataset, [])
  ∧ (let shown :=
       [] ++ [error "Failed to load data from data/integrated_water_related_data (1) (1).csv. Please check the file path and ensure the file exists."] in
     load_data (Example.world Example.missing Example.year_2015) [] = (Ended stop, shown)
     ∧ main (Example.world Example.missing Example.year_2015) [] = (Ended stop, shown)).
Proof.
  split.
  - apply (proj1 (loader_outcomes
                    (Example.world (Example.present Example.dataset) Example.year_2015) [])).
    reflexivity.
  - eapply (proj1 (proj2 (loader_outcomes
                            (Example.world Example.missing Example.year_2015) []))).
    reflexivity.
Defined.

(** ** The geocode enricher *)

Lemma add_coordinates_present data page :
  "Entity" ∈ columns data →
  add_coordinates data page
  = (Done (mkFrame (add_column "longitude" (add_column "latitude" (columns data)))
                   (geocoded <$> rows data)),
     page).
Proof.
  intros Hin. unfold add_coordinates.
  rewrite (proj2 (has_column_true _ _) Hin).
  erewrite bind_done by by apply getitem_present.
  erewrite bind_done.
  2:{ apply getitem_present. cbn [columns setitem]. apply elem_of_add_column. by right. }
  unfold ret, setitem. cbn [columns rows]. do 3 f_equal.
  generalize (rows data). intros l.
  induction l as [|r l IH]; [done|].
  rewrite !fmap_cons. cbn [zip_with]. rewrite !fmap_cons. cbn [zip_with].
  by rewrite IH.
Qed.

Lemma add_coordinates_absent data page :
  "Entity" ∉ columns data →
  add_coordinates data page
  = (Ended stop, page ++ [error "The expected 'Entity' column is not in the dataset."]).
Proof.
  intros Hin. unfold add_coordinates.
  by rewrite (proj2 (has_column_false _ _) Hin).
Qed.

Lemma geocoded_fields r :
  Entity (geocoded r) = Entity r ∧ Year (geocoded r) = Year r
  ∧ Health_Impact (geocoded r) = Health_Impact r
  ∧ Premature_Death_Count (geocoded r) = Premature_Death_Count r
  ∧ Total_discharges (geocoded r) = Total_discharges r
  ∧ color (geocoded r) = color r.
Proof. done. Qed.

Lemma mapped_spec r :
  mapped r ↔ ∃ name, Entity r = Some name ∧ name ∈ dom country_coords.
Proof.
  unfold mapped. destruct (Entity r) as [name|].
  - split; [by exists name|]. by intros (? & [= <-] & ?).
  - split; [done|]. by intros (? & [=] & _).
Qed.

Lemma geocoded_coordinates r :
  (∀ name, Entity r = Some name →
     latitude (geocoded r) = fst <$> country_coords !! name
     ∧ longitude (geocoded r) = snd <$> country_coords !! name)
  ∧ (Entity r = None → latitude (geocoded r) = None ∧ longitude (geocoded r) = None).
Proof.
  unfold geocoded, coords_get. cbn [latitude longitude set_latitude set_longitude].
  split.
  - intros name ->. by destruct (country_coords !! name) as [[lat lon]|].
  - by intros ->.
Qed.

Lemma geocoded_mapped r :
  (is_Some (latitude (geocoded r)) ↔ mapped r)
  ∧ (is_Some (longitude (geocoded r)) ↔ mapped r).
Proof.
  unfold mapped, geocoded, coords_get.
  cbn [Entity latitude longitude set_latitude set_longitude].
  destruct (Entity r) as [name|]; [|split; split; (by intros [? [=]] || done)].
  rewrite elem_of_dom.
  destruct (country_coords !! name) as [[lat lon]|]; simpl;
    split; split; (done || by intros [? [=]] || eauto).
Qed.

(** The header after lines 37-38: the two coordinate columns are appended,
    in this order, where they are not there yet. *)
Lemma geocoded_header (cols : list string) :
  add_column "longitude" (add_column "latitude" cols)
  = cols ++ filter (λ name, name ∉ cols) ["latitude"; "longitude"].
Proof.
  unfold add_column. rewrite !filter_cons, filter_nil.
  destruct (bool_decide_reflect ("latitude" ∈ cols)) as [Hlat|Hlat].
  - rewrite (decide_False (P := "latitude" ∉ cols)) by tauto.
    destruct (bool_decide_reflect ("longitude" ∈ cols)) as [Hlon|Hlon].
    + rewrite (decide_False (P := "longitude" ∉ cols)) by tauto. by rewrite app_nil_r.
    + by rewrite (decide_True (P := "longitude" ∉ cols)) by done.
  - rewrite (decide_True (P := "latitude" ∉ cols)) by done.
    destruct (bool_decide_reflect ("longitude" ∈ cols ++ ["latitude"])) as [Hlon|Hlon].
    + apply elem_of_app in Hlon as [Hlon|Hlon%list_elem_of_singleton]; [|done].
      by rewrite (decide_False (P := "longitude" ∉ cols)) by tauto.
    + rewrite (decide_True (P := "longitude" ∉ cols)); [by rewrite <- app_assoc|].
      intros Hin. apply Hlon, elem_of_app. by left.
Qed.

(** C5. Given a dataset with an entity column, the enricher returns it with
    the columns [latitude] and [longitude] in its header (appended in this
    order where the header did not have them, the columns of the file
    keeping their places) and with every record's latitude and longitude
    looked up in the coordinate table by the record's entity, missing when
    the table has no such entity; the other fields are kept.  So a coordinate
    is present exactly for the entities of the table.  Given a dataset
    without the entity column it puts an error on the page and stops the
    run. *)
Theorem geocode_enricher (data : DataFrame) (page : list Element) :
  ("Entity" ∈ columns data →
     ∃ data', add_coordinates data page = (Done data', page)
       ∧ columns data'
         = columns data ++ filter (λ name, name ∉ columns data) ["latitude"; "longitude"]
       ∧ "latitude" ∈ columns data' ∧ "longitude" ∈ columns data'
       ∧ length (rows data') = length (rows data)
       ∧ (∀ i r, rows data !! i = Some r →
            ∃ r', rows data' !! i = Some r'
              ∧ Entity r' = Entity r ∧ Year r' = Year r
              ∧ Health_Impact r' = Health_Impact r
              ∧ Premature_Death_Count r' = Premature_Death_Count r
              ∧ Total_discharges r' = Total_discharges r
              ∧ (∀ name, Entity r = Some name →
                   latitude r' = fst <$> country_coords !! name
                   ∧ longitude r' = snd <$> country_coords !! name)
              ∧ (Entity r = None → latitude r' = None ∧ longitude r' = None))
       ∧ (∀ r', r' ∈ rows data' →
            (is_Some (latitude r')
             ↔ ∃ name, Entity r' = Some name ∧ name ∈ dom country_coords)
            ∧ (is_Some (longitude r')
               ↔ ∃ name, Entity r' = Some name ∧ name ∈ dom country_coords)))
  ∧ ("Entity" ∉ columns data →
       let shown := page ++ [error "The expected 'Entity' column is not in the dataset."] in
       add_coordinates data page = (Ended stop, shown)
       ∧ ∀ w, read_csv w data_path = inr data → main w page = (Ended stop, shown)).
Proof.
  split.
  - intros Hin. eexists. split; [by apply add_coordinates_present|].
    cbn [rows columns]. split_and!.
    + apply geocoded_header.
    + rewrite !elem_of_add_column. tauto.
    + rewrite !elem_of_add_column. tauto.
    + by rewrite length_fmap.
    + intros i r Hi. exists (geocoded r).
      split; [by apply list_lookup_fmap_Some_2|].
      pose proof (geocoded_fields r). pose proof (geocoded_coordinates r).
      tauto.
    + intros r' (r & -> & _)%list_elem_of_fmap.
      destruct (geocoded_mapped r) as [Hlat Hlon].
      rewrite Hlat, Hlon. split; apply (mapped_spec r).
  - intros Hin shown.
    pose proof (add_coordinates_absent data page Hin) as Habs.
    split; [exact Habs|]. intros w Hread. unfold main.
    erewrite bind_done by by apply load_data_found.
    by apply bind_ended.
Qed.

Lemma geocode_enricher_example :
  (∃ data', add_coordinates Example.dataset [] = (Done data', [])
     ∧ columns data'
       = columns Example.dataset
         ++ filter (λ name, name ∉ columns Example.dataset) ["latitude"; "longitude"]
     ∧ "latitude" ∈ columns data' ∧ "longitude" ∈ columns data'
     ∧ length (rows data') = length (rows Example.dataset)
     ∧ (∀ i r, rows Example.dataset !! i = Some r →
          ∃ r', rows data' !! i = Some r'
            ∧ Entity r' = Entity r ∧ Year r' = Year r
            ∧ Health_Impact r' = Health_Impact r
            ∧ Premature_Death_Count r' = Premature_Death_Count r
            ∧ Total_discharges r' = Total_discharges r
            ∧ (∀ name, Entity r = Some name →
                 latitude r' = fst <$> country_coords !! name
                 ∧ longitude r' = snd <$> country_coords !! name)
            ∧ (Entity r = None → latitude r' = None ∧ longitude r' = None))
     ∧ (∀ r', r' ∈ rows data' →
          (is_Some (latitude r')
           ↔ ∃ name, Entity r' = Some name ∧ name ∈ dom country_coords)
          ∧ (is_Some (longitude r')
             ↔ ∃ name, Entity r' = Some name ∧ name ∈ dom country_coords)))
  ∧ add_coordinates (mkFrame ["Country"; "Year"] []) []
    = (Ended stop, [error "The expected 'Entity' column is not in the dataset."]).
Proof.
  split.
  - apply (proj1 (geocode_enricher Example.dataset [])). compute_done.
  - apply (proj2 (geocode_enricher (mkFrame ["Country"; "Year"] []) [])). compute_done.
Defined.

(** ** The map block *)

Lemma assign_color_colored view :
  assign_color view (Health_Impact <$> rows view) = colored_view view.
Proof.
  unfold assign_color, colored_view.
  rewrite <- (setitem_rows "color" (λ c, set_color (Some c)) severity_color Health_Impact).
  done.
Qed.

Lemma map_section_empty view page :
  empty view = true →
  map_section view page
  = (Done view, page ++ [error "No data available for the selected year range and filters."]).
Proof. intros Hemp. unfold map_section. by rewrite Hemp. Qed.

Lemma map_section_nonempty view page :
  empty view = false →
  "latitude" ∈ columns view → "longitude" ∈ columns view →
  "Health_Impact" ∈ columns view →
  map_section view page
  = (Done (colored_view view), page ++ [pydeck_chart (map_of view)]).
Proof.
  intros Hemp Hlat Hlon Himp. unfold map_section. rewrite Hemp. cbn [negb].
  erewrite bind_done by by apply getitem_present.
  erewrite bind_done by by apply getitem_present.
  erewrite bind_done by by apply getitem_present.
  by rewrite assign_color_colored.
Qed.

Lemma empty_rows_nil view : rows view = [] → empty view = true.
Proof. intros Hnil. unfold empty. by rewrite Hnil. Qed.

Lemma nonempty_view view r name :
  r ∈ rows view → name ∈ columns view → empty view = false.
Proof.
  unfold empty. intros Hr Hname.
  destruct (rows view); [by apply elem_of_nil in Hr|].
  destruct (columns view); [by apply elem_of_nil in Hname|done].
Qed.

(** C9. The color the map block assigns to a row of the view is decided by
    its health impact alone and in two cases: "High" gives [255, 0, 0, 160],
    every other value, a missing one too, gives [0, 255, 0, 160].  The colored rows are the
    data of the one layer of the map, which reads its color from that
    column. *)
Theorem map_color_two_cases (view : DataFrame) (page : list Element) :
  empty view = false →
  "latitude" ∈ columns view → "longitude" ∈ columns view →
  "Health_Impact" ∈ columns view →
  ∃ view' deck lyr,
    map_section view page = (Done view', page ++ [pydeck_chart deck])
    ∧ layers deck = [lyr] ∧ layer_data lyr = view' ∧ get_color lyr = "color"
    ∧ "color" ∈ columns view'
    ∧ length (rows view') = length (rows view)
    ∧ ∀ i r, rows view !! i = Some r →
        ∃ r', rows view' !! i = Some r'
          ∧ Health_Impact r' = Health_Impact r
          ∧ (Health_Impact r = Some "High" → color r' = Some [255; 0; 0; 160])
          ∧ (Health_Impact r ≠ Some "High" → color r' = Some [0; 255; 0; 160]).
Proof.
  intros Hemp Hlat Hlon Himp.
  exists (colored_view view), (map_of view). eexists.
  split; [by apply map_section_nonempty|].
  split_and!; try done.
  - cbn [columns colored_view]. apply elem_of_add_column. by left.
  - cbn [rows colored_view]. by rewrite length_fmap.
  - intros i r Hi. exists (colored r).
    split; [by apply list_lookup_fmap_Some_2|].
    split; [done|]. unfold colored, severity_color. cbn [color set_color].
    split; intros Hhi; case_bool_decide; first [done | contradiction].
Qed.

Lemma map_color_two_cases_example :
  ∃ view' deck lyr,
    map_section (filtered_data Example.enriched Example.year_2015) []
    = (Done view', [] ++ [pydeck_chart deck])
    ∧ layers deck = [lyr] ∧ layer_data lyr = view' ∧ get_color lyr = "color"
    ∧ "color" ∈ columns view'
    ∧ length (rows view') = length (rows (filtered_data Example.enriched Example.year_2015))
    ∧ ∀ i r, rows (filtered_data Example.enriched Example.year_2015) !! i = Some r →
        ∃ r', rows view' !! i = Some r'
          ∧ Health_Impact r' = Health_Impact r
          ∧ (Health_Impact r = Some "High" → color r' = Some [255; 0; 0; 160])
          ∧ (Health_Impact r ≠ Some "High" → color r' = Some [0; 255; 0; 160]).
Proof.
  apply (map_color_two_cases (filtered_data Example.enriched Example.year_2015) []);
    compute_done.
Defined.

(** ** Selections that match nothing *)

Lemma filter_none {A} (P : A → Prop) `{∀ x, Decision (P x)} (l : list A) :
  (∀ x, x ∈ l → ¬ P x) → filter P l = [].
Proof.
  induction l as [|x l IH]; [done|]. intros Hall.
  rewrite filter_cons, decide_False by (apply Hall; left).
  apply IH. intros y Hy. apply Hall. by right.
Qed.

(** C7. For every dataset, a selection with no entity, or with no category,
    or with a year range that holds no year of the dataset, or any other
    criteria that no row satisfies, gives an empty view.  The map block then
    shows the no-data message and the run goes on: nothing is raised, the
    view is left as it is, and both aggregations of it are empty. *)
Theorem empty_selection_no_data (data : DataFrame) (c : FilterCriteria)
    (page : list Element) :
  entity_filter c = [] ∨ health_impact_filter c = []
  ∨ (∀ r, r ∈ rows data → Year r < (year_range c).1 ∨ (year_range c).2 < Year r)
  ∨ (∀ r, r ∈ rows data → ¬ satisfies c r) →
  let view := filtered_data data c in
  rows view = []
  ∧ map_section view page
    = (Done view,
       page ++ [error "No data available for the selected year range and filters."])
  ∧ (∀ value, groupby_sum Year value (rows view) = [])
  ∧ value_counts (Health_Impact <$> rows view) = ∅.
Proof.
  intros Hsel view.
  assert (Hnone : ∀ r, r ∈ rows data → ¬ satisfies c r).
  { destruct Hsel as [Hent|[Himp|[Hyear|Hnone]]]; [| | |done];
      intros r Hr ([Hlo Hhi] & Hin1 & Hin2).
    - rewrite Hent in Hin1. by apply elem_of_nil in Hin1.
    - rewrite Himp in Hin2. by apply elem_of_nil in Hin2.
    - destruct (Hyear r Hr); lia. }
  assert (Hrows : rows view = []).
  { unfold view. rewrite filtered_data_rows. by apply filter_none. }
  split_and!; [done| |by rewrite Hrows..].
  apply map_section_empty. by apply empty_rows_nil.
Qed.

Lemma empty_selection_example :
  let w := Example.world (Example.present Example.dataset) Example.no_entity in
  let view := filtered_data Example.enriched Example.no_entity in
  (rows view = []
   ∧ map_section view []
     = (Done view, [] ++ [error "No data available for the selected year range and filters."])
   ∧ (∀ value, groupby_sum Year value (rows view) = [])
   ∧ value_counts (Health_Impact <$> rows view) = ∅)
  ∧ main w []
    = (Done (mkState Example.enriched view [] [] ∅),
       [error "No data available for the selected year range and filters.";
        plotly_chart (px_line [] "Year" "Premature_Death_Count"
                              "Premature Death Count Over Time" true);
        plotly_chart (px_line [] "Year" "Total discharges to Inland waters(million m3)"
                              "Discharges to Inland Waters Over Time" true);
        plotly_chart (px_pie ∅ "Count" "Health_Impact" "Health Impact Distribution")]).
Proof.
  split.
  - apply (empty_selection_no_data Example.enriched Example.no_entity []).
    left. reflexivity.
  - vm_compute. reflexivity.
Defined.

(** ** Runs that reach the end *)

(** A sidebar that yields criteria has found its three columns and at least
    one row, got its values from the widgets, and left the page alone. *)
Lemma sidebar_done w data page c page' :
  sidebar w data page = (Done c, page') →
  page' = page
  ∧ "Year" ∈ columns data ∧ "Entity" ∈ columns data ∧ "Health_Impact" ∈ columns data
  ∧ rows data ≠ []
  ∧ (∃ lo hi, slider w "Select Year Range" lo hi (2015, 2019) = inr (year_range c))
  ∧ multiselect w "Select Country" (unique (Entity <$> rows data))
                  (unique (Entity <$> rows data)) = inr (entity_filter c)
  ∧ multiselect w "Select Health Impact Type" (unique (Health_Impact <$> rows data))
                  (unique (Health_Impact <$> rows data)) = inr (health_impact_filter c).
Proof.
  unfold sidebar, try_except.
  match goal with |- context [match ?body page with _ => _ end] =>
    destruct (body page) as [[c0|how|e] page0] eqn:Hbody end; [|done|done].
  intros [= -> ->].
  apply bind_done_inv in Hbody as (year & p1 & (Hy & -> & ->)%getitem_done_inv & Hbody).
  apply bind_done_inv in Hbody as (lo & p2 & (Hne & ->)%int_min_done_inv & Hbody).
  apply bind_done_inv in Hbody as (year' & p3 & (_ & -> & ->)%getitem_done_inv & Hbody).
  apply bind_done_inv in Hbody as (hi & p4 & (_ & ->)%int_max_done_inv & Hbody).
  apply bind_done_inv in Hbody as (yr & p5 & (Hsl & ->)%lift_done_inv & Hbody).
  apply bind_done_inv in Hbody as (ent & p6 & (He & -> & ->)%getitem_done_inv & Hbody).
  apply bind_done_inv in Hbody as (ef & p7 & (Hms1 & ->)%lift_done_inv & Hbody).
  apply bind_done_inv in Hbody as (imp & p8 & (Hi & -> & ->)%getitem_done_inv & Hbody).
  apply bind_done_inv in Hbody as (hf & p9 & (Hms2 & ->)%lift_done_inv & Hbody).
  injection Hbody as <- <-. cbn [year_range entity_filter health_impact_filter].
  split_and!; try done; [|by eauto].
  intros Hnil. apply Hne. by rewrite Hnil.
Qed.

Lemma time_series_done_inv name field df page out page' :
  time_series name field df page = (Done out, page') →
  out = groupby_sum Year field (rows df) ∧ page' = page.
Proof.
  unfold time_series. destruct (has_column "Year" df); [|done].
  destruct (has_column name df); [|done]. by intros [= <- <-].
Qed.

Lemma main_done w page s page' :
  main w page = (Done s, page') →
  ∃ data0 c page1,
    read_csv w data_path = inr data0
    ∧ "Entity" ∈ columns data0
    ∧ var_data s
      = mkFrame (add_column "longitude" (add_column "latitude" (columns data0)))
                (geocoded <$> rows data0)
    ∧ sidebar w (var_data s) page = (Done c, page)
    ∧ map_section (filtered_data (var_data s) c) page = (Done (var_filtered_data s), page1)
    ∧ var_health_data s
      = groupby_sum Year Premature_Death_Count (rows (var_filtered_data s))
    ∧ var_env_data s = groupby_sum Year Total_discharges (rows (var_filtered_data s))
    ∧ var_pie_data s = value_counts (Health_Impact <$> rows (var_filtered_data s)).
Proof.
  unfold main. intros Hmain.
  apply bind_done_inv in Hmain as (data0 & p1 & [Hread ->]%load_data_done & Hmain).
  apply bind_done_inv in Hmain as (data & p2 & Henr & Hmain).
  destruct (decide ("Entity" ∈ columns data0)) as [Hent|Hent];
    [|by rewrite add_coordinates_absent in Henr].
  rewrite add_coordinates_present in Henr by done. injection Henr as <- <-.
  apply bind_done_inv in Hmain as (c & p3 & Hside & Hmain).
  pose proof (sidebar_done _ _ _ _ _ Hside) as [-> _].
  apply bind_done_inv in Hmain as (filtered & p4 & Hmap & Hmain).
  apply bind_done_inv in Hmain as (hd & p5 & Hhealth & Hmain).
  apply bind_done_inv in Hmain as (ed & p6 & Henv & Hmain).
  apply bind_done_inv in Hmain as (pd & p7 & Hpie & Hmain).
  apply bind_done_inv in Hmain as (u & p8 & _ & Hmain).
  injection Hmain as <- <-. cbn [var_data var_filtered_data var_health_data
                               var_env_data var_pie_data].
  exists data0, c, p4. split_and!; try done.
  - unfold health_section in Hhealth.
    apply bind_done_inv in Hhealth as (out & q & [-> ->]%time_series_done_inv & Hrest).
    apply bind_done_inv in Hrest as (u' & q' & _ & Hrest). by injection Hrest as <- _.
  - unfold env_section in Henv.
    apply bind_done_inv in Henv as (out & q & [-> ->]%time_series_done_inv & Hrest).
    apply bind_done_inv in Hrest as (u' & q' & _ & Hrest). by injection Hrest as <- _.
  - unfold pie_section in Hpie.
    apply bind_done_inv in Hpie as (i1 & q1 & (_ & -> & ->)%getitem_done_inv & Hrest).
    apply bind_done_inv in Hrest as (i2 & q2 & (_ & -> & ->)%getitem_done_inv & Hrest).
    apply bind_done_inv in Hrest as (u' & q' & _ & Hrest). by injection Hrest as <- _.
Qed.


(** ** What rendering does to the view *)

(** C10, as the code has it. In every run that reaches its end the view is
    computed anew from the dataset of that run and the criteria the sidebar
    yields in it.  Rendering a view with rows then writes into it: the map
    block adds the column [color] and gives every row its color; the rows,
    their order and their other fields stay.  A view without rows is left
    untouched.  The dataset gets no color column and no color from
    rendering. *)
Theorem view_recomputed_and_colored (w : World) (page page' : list Element) (s : State) :
  main w page = (Done s, page') →
  ∃ data0 c,
    read_csv w data_path = inr data0
    ∧ columns (var_data s) = add_column "longitude" (add_column "latitude" (columns data0))
    ∧ rows (var_data s) = geocoded <$> rows data0
    ∧ sidebar w (var_data s) page = (Done c, page)
    ∧ let view := filtered_data (var_data s) c in
      (rows view = [] → var_filtered_data s = view)
      ∧ (rows view ≠ [] →
           columns (var_filtered_data s) = add_column "color" (columns view)
           ∧ rows (var_filtered_data s) = colored <$> rows view).
Proof.
  intros (data0 & c & page1 & Hread & Hent & Hdata & Hside & Hmap & _)%main_done.
  exists data0, c. rewrite Hdata in *. cbn [columns rows].
  split_and!; try done.
  - intros Hnil. rewrite map_section_empty in Hmap by by apply empty_rows_nil.
    by injection Hmap as <- _.
  - intros Hne.
    pose proof (sidebar_done _ _ _ _ _ Hside) as (_ & _ & _ & Himp & _).
    assert (Hlat : "latitude" ∈ add_column "longitude" (add_column "latitude" (columns data0))).
    { rewrite !elem_of_add_column. tauto. }
    assert (Hlon : "longitude" ∈ add_column "longitude" (add_column "latitude" (columns data0))).
    { rewrite !elem_of_add_column. tauto. }
    rewrite map_section_nonempty in Hmap; try done.
    + by injection Hmap as <- _.
    + match goal with |- empty ?v = false =>
        destruct (rows v) as [|r l] eqn:Hrows; [done|];
        apply (nonempty_view v r "latitude"); [rewrite Hrows; left|done]
      end.
Qed.

Lemma view_recomputed_and_colored_example :
  ∃ s page',
    Example.run_2015 = (Done s, page')
    ∧ ∃ data0 c,
        read_csv (Example.world (Example.present Example.dataset) Example.year_2015) data_path
        = inr data0
        ∧ columns (var_data s)
          = add_column "longitude" (add_column "latitude" (columns data0))
        ∧ rows (var_data s) = geocoded <$> rows data0
        ∧ sidebar (Example.world (Example.present Example.dataset) Example.year_2015)
                  (var_data s) [] = (Done c, [])
        ∧ let view := filtered_data (var_data s) c in
          (rows view = [] → var_filtered_data s = view)
          ∧ (rows view ≠ [] →
               columns (var_filtered_data s) = add_column "color" (columns view)
               ∧ rows (var_filtered_data s) = colored <$> rows view).
Proof.
  eexists. eexists. split; [vm_compute; reflexivity|].
  eapply (view_recomputed_and_colored
            (Example.world (Example.present Example.dataset) Example.year_2015) []).
  vm_compute. reflexivity.
Defined.

(** C10 as the specification words it fails on the 2015 selection of the
    small dataset: when the run is over, the view is not the one the filter
    computed.  It has one column more, [color], and its first row, which
    came from the filter without a color, carries one. *)
Lemma rendering_writes_into_view :
  ∃ s page',
    Example.run_2015 = (Done s, page')
    ∧ var_data s = Example.enriched
    ∧ var_filtered_data s ≠ filtered_data Example.enriched Example.year_2015
    ∧ ("color" ∉ columns (filtered_data Example.enriched Example.year_2015))
    ∧ columns (var_filtered_data s)
      = columns (filtered_data Example.enriched Example.year_2015) ++ ["color"]
    ∧ color <$> rows (filtered_data Example.enriched Example.year_2015) !! 0%nat = Some None
    ∧ color <$> rows (var_filtered_data s) !! 0%nat = Some (Some [255; 0; 0; 160]).
Proof.
  eexists. eexists. split; [vm_compute; reflexivity|].
  split_and!; try (vm_compute; reflexivity).
  - intros [= ?].
  - compute_done.
Qed.

(** ** Entities the coordinate table does not know *)





(** On the 2015 selection of the small dataset: the row of "Atlantis" has no
    coordinates, it is the third row of the data the run gives to the layer
    of the map, and it is counted in the death counts of 2015 and among the
    "Low" records. *)
Lemma unmapped_row_in_map_layer :
  ∃ s page' deck lyr r,
    Example.run_2015 = (Done s, page')
    ∧ page' !! 0%nat = Some (pydeck_chart deck)
    ∧ layers deck = [lyr]
    ∧ rows (layer_data lyr) !! 2%nat = Some r
    ∧ Entity r = Some "Atlantis"
    ∧ country_coords !! "Atlantis" = None
    ∧ latitude r = None ∧ longitude r = None
    ∧ var_health_data s = [(2015, Int64 19)]
    ∧ var_env_data s = [(2015, Float64 170.25)]
    ∧ var_pie_data s !! "Low" = Some 1%nat.
Proof.
  do 5 eexists. split; [vm_compute; reflexivity|].
  split; [vm_compute; reflexivity|].
  split; [vm_compute; reflexivity|].
  split; [vm_compute; reflexivity|].
  split_and!; vm_compute; reflexivity.
Qed.

(** ** Two observations on whole runs *)

(** The example of the specification: the 2015 rows of Australia and
    Belgium, one point in each time series, two "High" records. *)
Lemma specification_example :
  let view := filtered_data Example.enriched Example.spec_criteria in
  (Entity <$> rows view) = [Some "Australia"; Some "Belgium"]
  ∧ groupby_sum Year Premature_Death_Count (rows view) = [(2015, Int64 17)]
  ∧ map_to_list (value_counts (Health_Impact <$> rows view)) = [("High", 2%nat)].
Proof. by vm_compute. Qed.

(** A dataset without rows never reaches the filter: [int] refuses the
    minimum of the empty year column, the sidebar block reports it and stops
    the run. *)
Lemma sidebar_without_rows (w : World) (data : DataFrame) (page : list Element) :
  "Year" ∈ columns data → rows data = [] →
  sidebar w data page
  = (Ended stop,
     page ++ [sidebar_error "Error loading filters: cannot convert float NaN to integer"]).
Proof.
  intros Hyear Hnil. unfold sidebar, try_except.
  erewrite bind_done by by apply getitem_present.
  rewrite Hnil. done.
Qed.

(** * Further properties of the script *)

(** ** Pieces of script that stay quiet *)

Lemma quiet_ret {A} (a : A) : quiet (ret a).
Proof. intros page. by exists (Done a). Qed.

Lemma quiet_raise {A} e : quiet (@raise A e).
Proof. intros page. by exists (Raised e). Qed.

Lemma quiet_lift {A} (r : Exception + A) : quiet (lift r).
Proof. destruct r; [apply quiet_raise|apply quiet_ret]. Qed.

Lemma quiet_getitem {A} name (field : Row → A) df : quiet (getitem name field df).
Proof. unfold getitem. destruct (has_column name df); [apply quiet_ret|apply quiet_raise]. Qed.

Lemma quiet_int_min col : quiet (int_min col).
Proof. destruct col; [apply quiet_raise|apply quiet_ret]. Qed.

Lemma quiet_int_max col : quiet (int_max col).
Proof. destruct col; [apply quiet_raise|apply quiet_ret]. Qed.

Lemma quiet_bind {A B} (m : Script A) (k : A → Script B) :
  quiet m → (∀ a, quiet (k a)) → quiet (m ≫= k).
Proof.
  intros Hm Hk page. destruct (Hm page) as (r & Hr & Hne).
  unfold mbind, script_bind, bind. rewrite Hr.
  destruct r as [a|how|e].
  - apply Hk.
  - by destruct (Hne how).
  - by exists (Raised e).
Qed.

Lemma bind_raised_inv {A B} (m : Script A) (k : A → Script B) page e page'' :
  (m ≫= k) page = (Raised e, page'') →
  m page = (Raised e, page'')
  ∨ ∃ a page', m page = (Done a, page') ∧ k a page' = (Raised e, page'').
Proof.
  unfold mbind, script_bind, bind.
  destruct (m page) as [[a|how|e'] page']; [eauto|done|].
  intros [= -> ->]. by left.
Qed.

Lemma bind_ended_inv {A B} (m : Script A) (k : A → Script B) page how page'' :
  (m ≫= k) page = (Ended how, page'') →
  m page = (Ended how, page'')
  ∨ ∃ a page', m page = (Done a, page') ∧ k a page' = (Ended how, page'').
Proof.
  unfold mbind, script_bind, bind.
  destruct (m page) as [[a|how'|e'] page']; [eauto| |done].
  intros [= -> ->]. by left.
Qed.

(** ** The sidebar block *)

Lemma try_except_quiet {A} (body : Script A) (h : Exception → Script A) page :
  quiet body →
  (∃ a, try_except body (λ e, Some (h e)) page = (Done a, page))
  ∨ (∃ e, try_except body (λ e, Some (h e)) page = h e page).
Proof.
  intros Hq. unfold try_except. destruct (Hq page) as (r & -> & Hne).
  destruct r as [a|how|e]; [left; by exists a|by destruct (Hne how)|right; by exists e].
Qed.

Ltac quiet_script :=
  repeat first [ apply quiet_ret | apply quiet_lift | apply quiet_getitem
               | apply quiet_int_min | apply quiet_int_max
               | apply quiet_bind; [|intros ?] ].

Lemma sidebar_cases w data page :
  (∃ c, sidebar w data page = (Done c, page))
  ∨ (∃ e, sidebar w data page
          = (Ended stop, page ++ [sidebar_error ("Error loading filters: " +:+ str e)])).
Proof.
  unfold sidebar.
  match goal with |- context [try_except ?body _ page] =>
    destruct (try_except_quiet body
                (λ e, st_sidebar_error ("Error loading filters: " +:+ str e);; st_stop)
                page) as [[c Hc]|[e He]]; [quiet_script|left; by exists c|right; by exists e]
  end.
Qed.

(** ** From the sidebar to the end of a run *)

Lemma map_section_rendered view page :
  "latitude" ∈ columns view → "longitude" ∈ columns view →
  "Health_Impact" ∈ columns view →
  map_section view page = (Done (rendered_view view), page ++ [first_element view]).
Proof.
  intros Hlat Hlon Himp. unfold rendered_view, first_element.
  destruct (empty view) eqn:Hemp.
  - by apply map_section_empty.
  - by apply map_section_nonempty.
Qed.

Lemma elem_of_rendered_columns view name :
  name ≠ "color" → name ∈ columns (rendered_view view) ↔ name ∈ columns view.
Proof.
  intros Hne. unfold rendered_view. destruct (empty view); [done|].
  cbn [columns colored_view]. rewrite elem_of_add_column. tauto.
Qed.

Lemma elem_of_geocoded_columns data name :
  name ≠ "latitude" → name ≠ "longitude" →
  name ∈ columns (geocoded_frame data) ↔ name ∈ columns data.
Proof.
  intros Hlat Hlon. cbn [columns geocoded_frame]. rewrite !elem_of_add_column. tauto.
Qed.

Lemma geocoded_frame_coordinates data :
  "latitude" ∈ columns (geocoded_frame data) ∧ "longitude" ∈ columns (geocoded_frame data).
Proof. cbn [columns geocoded_frame]. rewrite !elem_of_add_column. tauto. Qed.

Lemma time_series_present name field df page :
  "Year" ∈ columns df → name ∈ columns df →
  time_series name field df page = (Done (groupby_sum Year field (rows df)), page).
Proof.
  intros Hy Hn. unfold time_series.
  by rewrite !(proj2 (has_column_true _ _)) by done.
Qed.

Lemma time_series_absent name field df page :
  "Year" ∈ columns df → name ∉ columns df →
  time_series name field df page = (Raised (KeyError ("Column not found: " +:+ name)), page).
Proof.
  intros Hy Hn. unfold time_series.
  rewrite (proj2 (has_column_true _ _)) by done.
  by rewrite (proj2 (has_column_false _ _)) by done.
Qed.

Lemma pie_section_present df page :
  "Health_Impact" ∈ columns df →
  pie_section df page
  = (Done (value_counts (Health_Impact <$> rows df)),
     page ++ [pie_chart (value_counts (Health_Impact <$> rows df))]).
Proof.
  intros Himp. unfold pie_section.
  erewrite bind_done by by apply getitem_present.
  erewrite bind_done by by apply getitem_present.
  by erewrite bind_done by done.
Qed.

(** A run whose file is read, whose dataset has the entity column and whose
    sidebar yields criteria, written out. *)
Lemma main_forward w page data0 c :
  read_csv w data_path = inr data0 → "Entity" ∈ columns data0 →
  sidebar w (geocoded_frame data0) page = (Done c, page) →
  let data := geocoded_frame data0 in
  let view := filtered_data data c in
  let v := rendered_view view in
  let hd := groupby_sum Year Premature_Death_Count (rows v) in
  let ed := groupby_sum Year Total_discharges (rows v) in
  let pd := value_counts (Health_Impact <$> rows v) in
  main w page
  = if bool_decide ("Premature_Death_Count" ∈ columns data0) then
      if bool_decide ("Total discharges to Inland waters(million m3)" ∈ columns data0) then
        (if button w "Refresh Dashboard" then Ended rerun
         else Done (mkState data v hd ed pd),
         page ++ [first_element view; health_chart hd; env_chart ed; pie_chart pd])
      else
        (Raised (KeyError "Column not found: Total discharges to Inland waters(million m3)"),
         page ++ [first_element view; health_chart hd])
    else
      (Raised (KeyError "Column not found: Premature_Death_Count"),
       page ++ [first_element view]).
Proof.
  intros Hread Hent Hside data view v hd ed pd.
  pose proof (sidebar_done _ _ _ _ _ Hside) as (_ & Hyear & _ & Himp & _).
  destruct (geocoded_frame_coordinates data0) as [Hlat Hlon].
  assert (Hcol : ∀ name, name ≠ "color" → name ≠ "latitude" → name ≠ "longitude" →
                         name ∈ columns v ↔ name ∈ columns data0).
  { intros name H1 H2 H3. unfold v.
    rewrite elem_of_rendered_columns by done.
    by apply elem_of_geocoded_columns. }
  assert (Hyear' : "Year" ∈ columns v) by by apply elem_of_rendered_columns.
  assert (Himp' : "Health_Impact" ∈ columns v) by by apply elem_of_rendered_columns.
  unfold main.
  erewrite bind_done by by apply load_data_found.
  erewrite bind_done by by apply add_coordinates_present.
  erewrite bind_done by exact Hside.
  erewrite bind_done by by apply map_section_rendered.
  fold data view v.
  case_bool_decide as Hpdc.
  2:{ apply bind_raised. unfold health_section. apply bind_raised.
      apply time_series_absent; [done|].
      intros Hin. apply Hpdc. apply Hcol; [done..|exact Hin]. }
  erewrite bind_done.
  2:{ unfold health_section.
      erewrite bind_done by (apply time_series_present; [done|by apply Hcol]).
      by erewrite bind_done by done. }
  fold hd. rewrite <- (app_assoc page). cbn [app].
  case_bool_decide as Hdis.
  2:{ apply bind_raised. unfold env_section. apply bind_raised.
      apply time_series_absent; [done|].
      intros Hin. apply Hdis. apply Hcol; [done..|exact Hin]. }
  erewrite bind_done.
  2:{ unfold env_section.
      erewrite bind_done by (apply time_series_present; [done|by apply Hcol]).
      by erewrite bind_done by done. }
  fold ed. rewrite <- (app_assoc page). cbn [app].
  erewrite bind_done by by apply pie_section_present.
  fold pd. rewrite <- (app_assoc page). cbn [app].
  destruct (button w "Refresh Dashboard").
  - by apply bind_ended.
  - by erewrite bind_done by done.
Qed.

(** ** How a run can go *)

Lemma main_not_found w page msg :
  read_csv w data_path = inl (FileNotFoundError msg) →
  main w page
  = (Ended stop,
     page ++ [error "Failed to load data from data/integrated_water_related_data (1) (1).csv. Please check the file path and ensure the file exists."]).
Proof. intros Hread. by apply main_load_failed, load_data_not_found with msg. Qed.

Lemma main_read_error w page e :
  read_csv w data_path = inl e → (∀ msg, e ≠ FileNotFoundError msg) →
  main w page = (Raised e, page).
Proof. intros Hread Hne. by apply main_load_raised, load_data_other. Qed.

Lemma main_no_entity w page data0 :
  read_csv w data_path = inr data0 → "Entity" ∉ columns data0 →
  main w page
  = (Ended stop, page ++ [error "The expected 'Entity' column is not in the dataset."]).
Proof.
  intros Hread Hent. unfold main.
  erewrite bind_done by by apply load_data_found.
  by apply bind_ended, add_coordinates_absent.
Qed.

Lemma main_sidebar_stopped w page data0 how page' :
  read_csv w data_path = inr data0 → "Entity" ∈ columns data0 →
  sidebar w (geocoded_frame data0) page = (Ended how, page') →
  main w page = (Ended how, page').
Proof.
  intros Hread Hent Hside. unfold main.
  erewrite bind_done by by apply load_data_found.
  erewrite bind_done by by apply add_coordinates_present.
  by apply bind_ended.
Qed.

Lemma main_cases w page :
  (∃ msg, read_csv w data_path = inl (FileNotFoundError msg))
  ∨ (∃ e, read_csv w data_path = inl e ∧ ∀ msg, e ≠ FileNotFoundError msg)
  ∨ (∃ data0, read_csv w data_path = inr data0 ∧ "Entity" ∉ columns data0)
  ∨ (∃ data0 e,
       read_csv w data_path = inr data0 ∧ "Entity" ∈ columns data0
       ∧ sidebar w (geocoded_frame data0) page
         = (Ended stop, page ++ [sidebar_error ("Error loading filters: " +:+ str e)]))
  ∨ (∃ data0 c,
       read_csv w data_path = inr data0 ∧ "Entity" ∈ columns data0
       ∧ sidebar w (geocoded_frame data0) page = (Done c, page)).
Proof.
  destruct (read_csv w data_path) as [e|data0] eqn:Hread.
  - destruct e as [msg|key|msg|class msg]; [left; by exists msg|right; left..];
      (eexists; split; [done|]; by intros msg').
  - do 2 right.
    destruct (decide ("Entity" ∈ columns data0)) as [Hent|Hent];
      [right|left; by exists data0].
    destruct (sidebar_cases w (geocoded_frame data0) page) as [[c Hc]|[e He]].
    + right. by exists data0, c.
    + left. by exists data0, e.
Qed.

Lemma main_forward_not_stopped w page data0 c page' :
  read_csv w data_path = inr data0 → "Entity" ∈ columns data0 →
  sidebar w (geocoded_frame data0) page = (Done c, page) →
  main w page ≠ (Ended stop, page').
Proof.
  intros Hread Hent Hside. rewrite (main_forward w page data0 c) by done.
  repeat case_bool_decide; try done. by destruct (button w "Refresh Dashboard").
Qed.

(** X1. No exception leaves the sidebar block: it either yields criteria and
    leaves the page as it was, or it puts one error on the sidebar, made of
    "Error loading filters: " and the text of the exception, and stops the
    run. *)
Theorem sidebar_never_raises (w : World) (data : DataFrame) (page : list Element) :
  (∃ c, sidebar w data page = (Done c, page))
  ∨ (∃ e, sidebar w data page
          = (Ended stop, page ++ [sidebar_error ("Error loading filters: " +:+ str e)])).
Proof.
  unfold sidebar.
  match goal with |- context [try_except ?body _ page] =>
    assert (Hquiet : quiet body) by quiet_script;
    destruct (try_except_quiet body
                (λ e, st_sidebar_error ("Error loading filters: " +:+ str e);; st_stop)
                page Hquiet) as [[c Hc]|[e He]]
  end.
  - left. by exists c.
  - right. exists e. by rewrite He.
Qed.

(** X2. A run that is stopped has put exactly one element on the page, an
    error: the loader's when the file does not exist, the enricher's when
    the entity column is missing, the sidebar's otherwise.  No chart is
    shown in a stopped run. *)
Theorem stopped_run_shows_one_error (w : World) (page page' : list Element) :
  main w page = (Ended stop, page') →
  (page' = page ++ [error "Failed to load data from data/integrated_water_related_data (1) (1).csv. Please check the file path and ensure the file exists."]
   ∧ ∃ msg, read_csv w data_path = inl (FileNotFoundError msg))
  ∨ (page' = page ++ [error "The expected 'Entity' column is not in the dataset."]
     ∧ ∃ data0, read_csv w data_path = inr data0 ∧ "Entity" ∉ columns data0)
  ∨ (∃ e, page' = page ++ [sidebar_error ("Error loading filters: " +:+ str e)]).
Proof.
  intros Hmain.
  destruct (main_cases w page)
    as [[msg Hread]|[(e & Hread & Hne)|[(data0 & Hread & Hent)|
        [(data0 & e & Hread & Hent & Hside)|(data0 & c & Hread & Hent & Hside)]]]].
  - rewrite (main_not_found w page msg Hread) in Hmain. injection Hmain as <-.
    left. split; [done|by exists msg].
  - by rewrite (main_read_error w page e Hread Hne) in Hmain.
  - rewrite (main_no_entity w page data0 Hread Hent) in Hmain. injection Hmain as <-.
    right. left. split; [done|by exists data0].
  - rewrite (main_sidebar_stopped w page data0 _ _ Hread Hent Hside) in Hmain.
    injection Hmain as <-. right. right. by exists e.
  - by destruct (main_forward_not_stopped w page data0 c page' Hread Hent Hside).
Qed.

(** X3. Of what the script does itself (reading the file, looking columns
    up, converting the bounds, calling the widgets) only three exceptions
    can leave it: an exception of
    [read_csv] other than FileNotFoundError, with nothing on the page yet;
    the KeyError of line 110 for a dataset without the death-count column,
    after the map or the no-data message; the KeyError of line 117 for a
    dataset without the discharge column, after the first line chart. *)
Theorem exceptions_that_leave_the_script (w : World) (page page' : list Element)
    (e : Exception) :
  main w page = (Raised e, page') →
  (read_csv w data_path = inl e ∧ (∀ msg, e ≠ FileNotFoundError msg) ∧ page' = page)
  ∨ (e = KeyError "Column not found: Premature_Death_Count"
     ∧ ∃ data0 first,
         read_csv w data_path = inr data0
         ∧ ("Premature_Death_Count" ∉ columns data0)
         ∧ page' = page ++ [first])
  ∨ (e = KeyError "Column not found: Total discharges to Inland waters(million m3)"
     ∧ ∃ data0 first health_data,
         read_csv w data_path = inr data0
         ∧ ("Total discharges to Inland waters(million m3)" ∉ columns data0)
         ∧ page' = page ++ [first; health_chart health_data]).
Proof.
  intros Hmain.
  destruct (main_cases w page)
    as [[msg Hread]|[(e' & Hread & Hne)|[(data0 & Hread & Hent)|
        [(data0 & e' & Hread & Hent & Hside)|(data0 & c & Hread & Hent & Hside)]]]].
  - by rewrite (main_not_found w page msg Hread) in Hmain.
  - rewrite (main_read_error w page e' Hread Hne) in Hmain.
    injection Hmain as <- <-. by left.
  - by rewrite (main_no_entity w page data0 Hread Hent) in Hmain.
  - by rewrite (main_sidebar_stopped w page data0 _ _ Hread Hent Hside) in Hmain.
  - rewrite (main_forward w page data0 c Hread Hent Hside) in Hmain.
    cbv zeta in Hmain.
    case_bool_decide as Hpdc; [case_bool_decide as Hdis|].
    + by destruct (button w "Refresh Dashboard").
    + injection Hmain as <- <-. right. right. split; [done|]. by eauto 6.
    + injection Hmain as <- <-. right. left. split; [done|]. by eauto 6.
Qed.

(** X4. A run that reaches its end has put exactly four elements on the
    page, in this order: the map, or the no-data message when the view has
    no rows; the line chart of the death counts; the line chart of the
    discharges; the pie chart.  Each chart shows the aggregate the script
    holds in its variable, and the layer of the map holds the view the
    script is left with. *)
Theorem finished_run_page (w : World) (page page' : list Element) (s : State) :
  main w page = (Done s, page') →
  ∃ c,
    sidebar w (var_data s) page = (Done c, page)
    ∧ var_filtered_data s = rendered_view (filtered_data (var_data s) c)
    ∧ page' = page ++ [first_element (filtered_data (var_data s) c);
                       health_chart (var_health_data s);
                       env_chart (var_env_data s);
                       pie_chart (var_pie_data s)]
    ∧ (rows (filtered_data (var_data s) c) = [] →
         first_element (filtered_data (var_data s) c)
         = error "No data available for the selected year range and filters.")
    ∧ (rows (filtered_data (var_data s) c) ≠ [] →
         ∃ deck lyr,
           first_element (filtered_data (var_data s) c) = pydeck_chart deck
           ∧ layers deck = [lyr] ∧ layer_data lyr = var_filtered_data s).
Proof.
  intros Hmain.
  destruct (main_cases w page)
    as [[msg Hread]|[(e' & Hread & Hne)|[(data0 & Hread & Hent)|
        [(data0 & e' & Hread & Hent & Hside)|(data0 & c & Hread & Hent & Hside)]]]].
  - by rewrite (main_not_found w page msg Hread) in Hmain.
  - by rewrite (main_read_error w page e' Hread Hne) in Hmain.
  - by rewrite (main_no_entity w page data0 Hread Hent) in Hmain.
  - by rewrite (main_sidebar_stopped w page data0 _ _ Hread Hent Hside) in Hmain.
  - rewrite (main_forward w page data0 c Hread Hent Hside) in Hmain.
    cbv zeta in Hmain.
    case_bool_decide as Hpdc; [case_bool_decide as Hdis|]; try done.
    destruct (button w "Refresh Dashboard"); [done|].
    injection Hmain as <- <-. cbn [var_data var_filtered_data var_health_data
                                  var_env_data var_pie_data].
    exists c. split_and!; try done.
    + intros Hnil. unfold first_element. by rewrite empty_rows_nil.
    + intros Hne. unfold first_element, rendered_view.
      destruct (rows (filtered_data (geocoded_frame data0) c)) as [|r l] eqn:Hrows;
        [done|].
      rewrite (nonempty_view _ r "latitude");
        [|rewrite Hrows; left|apply geocoded_frame_coordinates].
      by do 2 eexists.
Qed.

Lemma stopped_run_example :
  ([error "Failed to load data from data/integrated_water_related_data (1) (1).csv. Please check the file path and ensure the file exists."]
   = [] ++ [error "Failed to load data from data/integrated_water_related_data (1) (1).csv. Please check the file path and ensure the file exists."]
   ∧ ∃ msg, read_csv (Example.world Example.missing Example.year_2015) data_path
            = inl (FileNotFoundError msg))
  ∨ ([error "Failed to load data from data/integrated_water_related_data (1) (1).csv. Please check the file path and ensure the file exists."]
     = [] ++ [error "The expected 'Entity' column is not in the dataset."]
     ∧ ∃ data0, read_csv (Example.world Example.missing Example.year_2015) data_path
                = inr data0 ∧ "Entity" ∉ columns data0)
  ∨ (∃ e, [error "Failed to load data from data/integrated_water_related_data (1) (1).csv. Please check the file path and ensure the file exists."]
          = [] ++ [sidebar_error ("Error loading filters: " +:+ str e)]).
Proof.
  apply (stopped_run_shows_one_error (Example.world Example.missing Example.year_2015) []).
  vm_compute. reflexivity.
Defined.

Lemma exceptions_example :
  (read_csv (Example.world Example.unparsable Example.year_2015) data_path
   = inl Example.parser_error
   ∧ (∀ msg, Example.parser_error ≠ FileNotFoundError msg)
   ∧ ([] : list Element) = [])
  ∨ (Example.parser_error = KeyError "Column not found: Premature_Death_Count"
     ∧ ∃ data0 (first : Element),
         read_csv (Example.world Example.unparsable Example.year_2015) data_path = inr data0
         ∧ ("Premature_Death_Count" ∉ columns data0)
         ∧ ([] : list Element) = [] ++ [first])
  ∨ (Example.parser_error
     = KeyError "Column not found: Total discharges to Inland waters(million m3)"
     ∧ ∃ data0 (first : Element) health_data,
         read_csv (Example.world Example.unparsable Example.year_2015) data_path = inr data0
         ∧ ("Total discharges to Inland waters(million m3)" ∉ columns data0)
         ∧ ([] : list Element) = [] ++ [first; health_chart health_data]).
Proof.
  apply (exceptions_that_leave_the_script
           (Example.world Example.unparsable Example.year_2015) []).
  vm_compute. reflexivity.
Defined.

Lemma finished_run_example :
  ∃ s page',
    Example.run_2015 = (Done s, page')
    ∧ ∃ c,
        sidebar (Example.world (Example.present Example.dataset) Example.year_2015)
                (var_data s) [] = (Done c, [])
        ∧ var_filtered_data s = rendered_view (filtered_data (var_data s) c)
        ∧ page' = [] ++ [first_element (filtered_data (var_data s) c);
                         health_chart (var_health_data s);
                         env_chart (var_env_data s);
                         pie_chart (var_pie_data s)]
        ∧ (rows (filtered_data (var_data s) c) = [] →
             first_element (filtered_data (var_data s) c)
             = error "No data available for the selected year range and filters.")
        ∧ (rows (filtered_data (var_data s) c) ≠ [] →
             ∃ deck lyr,
               first_element (filtered_data (var_data s) c) = pydeck_chart deck
               ∧ layers deck = [lyr] ∧ layer_data lyr = var_filtered_data s).
Proof.
  eexists. eexists. split; [vm_compute; reflexivity|].
  eapply (finished_run_page
            (Example.world (Example.present Example.dataset) Example.year_2015) []).
  vm_compute. reflexivity.
Defined.

(** X5. Pressing the refresh button changes nothing on the page: the run
    goes as without the press, and where that run would reach its end this
    one ends by asking for a rerun.  A run that is stopped or raises before
    line 195 is the same with and without the press. *)
Theorem refresh_button_reruns (w : World) (page : list Element) :
  main (set_button true w) page
  = match main (set_button false w) page with
    | (Done _, page') => (Ended rerun, page')
    | outcome => outcome
    end.
Proof.
  destruct (main_cases (set_button false w) page)
    as [[msg Hread]|[(e' & Hread & Hne)|[(data0 & Hread & Hent)|
        [(data0 & e' & Hread & Hent & Hside)|(data0 & c & Hread & Hent & Hside)]]]].
  - rewrite (main_not_found (set_button false w) page msg Hread).
    by rewrite (main_not_found (set_button true w) page msg Hread).
  - rewrite (main_read_error (set_button false w) page e' Hread Hne).
    by rewrite (main_read_error (set_button true w) page e' Hread Hne).
  - rewrite (main_no_entity (set_button false w) page data0 Hread Hent).
    by rewrite (main_no_entity (set_button true w) page data0 Hread Hent).
  - rewrite (main_sidebar_stopped (set_button false w) page data0 _ _ Hread Hent Hside).
    by rewrite (main_sidebar_stopped (set_button true w) page data0 _ _ Hread Hent Hside).
  - rewrite (main_forward (set_button false w) page data0 c Hread Hent Hside).
    rewrite (main_forward (set_button true w) page data0 c Hread Hent Hside).
    cbv zeta. cbn [button set_button].
    by repeat case_bool_decide.
Qed.

(** ** Datasets that lack something *)


Lemma sidebar_missing_year w data page :
  "Year" ∉ columns data →
  sidebar w data page
  = (Ended stop, page ++ [sidebar_error "Error loading filters: 'Year'"]).
Proof.
  intros Hyear. unfold sidebar, try_except, getitem.
  rewrite (proj2 (has_column_false _ _) Hyear). done.
Qed.



(** X7. A dataset without rows never reaches the filter: the minimum of the
    empty year column is not a number, [int] refuses it, and the run stops
    at the sidebar with that error. *)
Theorem empty_dataset_stops (w : World) (data0 : DataFrame) (page : list Element) :
  read_csv w data_path = inr data0 →
  "Entity" ∈ columns data0 → "Year" ∈ columns data0 →
  rows data0 = [] →
  main w page
  = (Ended stop,
     page ++ [sidebar_error "Error loading filters: cannot convert float NaN to integer"]).
Proof.
  intros Hread Hent Hyear Hrows.
  apply (main_sidebar_stopped w page data0); [done..|].
  apply sidebar_without_rows.
  - by apply elem_of_geocoded_columns.
  - cbn [rows geocoded_frame]. by rewrite Hrows.
Qed.

Lemma empty_dataset_example :
  main (Cases.untouched Cases.dataset_no_rows) []
  = (Ended stop,
     [] ++ [sidebar_error "Error loading filters: cannot convert float NaN to integer"]).
Proof.
  apply (empty_dataset_stops (Cases.untouched Cases.dataset_no_rows)
                             Cases.dataset_no_rows []).
  - reflexivity.
  - compute_done.
  - compute_done.
  - reflexivity.
Defined.

(** X8. A dataset with the entity column and without the year column is
    enriched and then stops at the sidebar: the KeyError of line 71 is
    caught and shown as "Error loading filters: 'Year'". *)
Theorem missing_year_stops (w : World) (data0 : DataFrame) (page : list Element) :
  read_csv w data_path = inr data0 →
  "Entity" ∈ columns data0 → "Year" ∉ columns data0 →
  main w page
  = (Ended stop, page ++ [sidebar_error "Error loading filters: 'Year'"]).
Proof.
  intros Hread Hent Hyear.
  apply (main_sidebar_stopped w page data0); [done..|].
  apply sidebar_missing_year.
  intros Hin. apply Hyear.
  by apply (proj1 (elem_of_geocoded_columns data0 "Year" ltac:(done) ltac:(done))).
Qed.

Lemma missing_year_example :
  main (Cases.untouched Cases.dataset_no_year) []
  = (Ended stop, [] ++ [sidebar_error "Error loading filters: 'Year'"]).
Proof.
  apply (missing_year_stops (Cases.untouched Cases.dataset_no_year)
                            Cases.dataset_no_year []).
  - reflexivity.
  - compute_done.
  - compute_done.
Defined.


(** ** What the sidebar offers *)

Lemma foldr_min_spec (x : Z) (l : list Z) :
  foldr Z.min x l ∈ x :: l ∧ ∀ y, y ∈ x :: l → foldr Z.min x l ≤ y.
Proof.
  induction l as [|z l [IHin IHle]]; cbn [foldr].
  - split; [left|]. intros y ->%list_elem_of_singleton. lia.
  - split.
    + destruct (Z.min_spec z (foldr Z.min x l)) as [[_ ->]|[_ ->]].
      * right. left.
      * apply elem_of_cons in IHin as [->|Hin]; [left|right; by right].
    + intros y Hy. pose proof (Z.le_min_l z (foldr Z.min x l)).
      pose proof (Z.le_min_r z (foldr Z.min x l)).
      apply elem_of_cons in Hy as [->|Hy].
      * specialize (IHle x ltac:(left)). lia.
      * apply elem_of_cons in Hy as [->|Hy]; [lia|].
        specialize (IHle y ltac:(by right)). lia.
Qed.

Lemma foldr_max_spec (x : Z) (l : list Z) :
  foldr Z.max x l ∈ x :: l ∧ ∀ y, y ∈ x :: l → y ≤ foldr Z.max x l.
Proof.
  induction l as [|z l [IHin IHle]]; cbn [foldr].
  - split; [left|]. intros y ->%list_elem_of_singleton. lia.
  - split.
    + destruct (Z.max_spec z (foldr Z.max x l)) as [[_ ->]|[_ ->]].
      * apply elem_of_cons in IHin as [->|Hin]; [left|right; by right].
      * right. left.
    + intros y Hy. pose proof (Z.le_max_l z (foldr Z.max x l)).
      pose proof (Z.le_max_r z (foldr Z.max x l)).
      apply elem_of_cons in Hy as [->|Hy].
      * specialize (IHle x ltac:(left)). lia.
      * apply elem_of_cons in Hy as [->|Hy]; [lia|].
        specialize (IHle y ltac:(by right)). lia.
Qed.

(** X10. The year slider is created over the years of the dataset: its lower
    bound is the smallest year of any row and its upper bound the largest,
    so every row's year lies between the two and both occur in the data.
    The default (2015, 2019) is passed whatever these bounds are. *)
Theorem slider_spans_the_years (w : World) (data : DataFrame) (c : FilterCriteria)
    (page page' : list Element) :
  sidebar w data page = (Done c, page') →
  ∃ lo hi,
    slider w "Select Year Range" lo hi (2015, 2019) = inr (year_range c)
    ∧ (∀ r, r ∈ rows data → lo ≤ Year r ∧ Year r ≤ hi)
    ∧ (∃ r, r ∈ rows data ∧ Year r = lo)
    ∧ (∃ r, r ∈ rows data ∧ Year r = hi).
Proof.
  unfold sidebar, try_except.
  match goal with |- context [match ?body page with _ => _ end] =>
    destruct (body page) as [[c0|how|e] page0] eqn:Hbody end; [|done|done].
  intros [= -> ->].
  apply bind_done_inv in Hbody as (year & p1 & (Hy & -> & ->)%getitem_done_inv & Hbody).
  apply bind_done_inv in Hbody as (lo & p2 & Hlo & Hbody).
  destruct (rows data) as [|r0 l0] eqn:Hrows; [done|].
  rewrite fmap_cons in Hlo. injection Hlo as <- <-.
  apply bind_done_inv in Hbody as (year' & p3 & (_ & -> & ->)%getitem_done_inv & Hbody).
  apply bind_done_inv in Hbody as (hi & p4 & Hhi & Hbody).
  rewrite Hrows, fmap_cons in Hhi. injection Hhi as <- <-.
  apply bind_done_inv in Hbody as (yr & p5 & (Hsl & ->)%lift_done_inv & Hbody).
  apply bind_done_inv in Hbody as (ent & p6 & (He & -> & ->)%getitem_done_inv & Hbody).
  apply bind_done_inv in Hbody as (ef & p7 & (Hms1 & ->)%lift_done_inv & Hbody).
  apply bind_done_inv in Hbody as (imp & p8 & (Hi & -> & ->)%getitem_done_inv & Hbody).
  apply bind_done_inv in Hbody as (hf & p9 & (Hms2 & ->)%lift_done_inv & Hbody).
  injection Hbody as <- <-. cbn [year_range].
  destruct (foldr_min_spec (Year r0) (Year <$> l0)) as [Hmin_in Hmin_le].
  destruct (foldr_max_spec (Year r0) (Year <$> l0)) as [Hmax_in Hmax_le].
  rewrite <- fmap_cons in Hmin_in, Hmin_le, Hmax_in, Hmax_le.
  do 2 eexists. split; [exact Hsl|]. split_and!.
  - intros r Hr. split.
    + apply Hmin_le. by apply list_elem_of_fmap_2.
    + apply Hmax_le. by apply list_elem_of_fmap_2.
  - apply list_elem_of_fmap in Hmin_in as (r & Heq & Hr). by exists r.
  - apply list_elem_of_fmap in Hmax_in as (r & Heq & Hr). by exists r.
Qed.

Lemma slider_spans_the_years_example :
  ∃ lo hi,
    slider (Cases.untouched Example.dataset) "Select Year Range" lo hi (2015, 2019)
    = inr (year_range (mkCriteria (2015, 2019) [Some "Australia"; Some "Belgium"; Some "Atlantis"]
                                  [Some "High"; Some "Low"]))
    ∧ (∀ r, r ∈ rows Example.enriched → lo ≤ Year r ∧ Year r ≤ hi)
    ∧ (∃ r, r ∈ rows Example.enriched ∧ Year r = lo)
    ∧ (∃ r, r ∈ rows Example.enriched ∧ Year r = hi).
Proof.
  apply (slider_spans_the_years (Cases.untouched Example.dataset) Example.enriched _ [] []).
  vm_compute. reflexivity.
Defined.

Lemma filter_ext_in {A} (P Q : A → Prop) `{∀ x, Decision (P x)} `{∀ x, Decision (Q x)}
    (l : list A) :
  (∀ x, x ∈ l → P x ↔ Q x) → filter P l = filter Q l.
Proof.
  induction l as [|x l IH]; [done|]. intros Hext.
  rewrite !filter_cons, IH by (intros y Hy; apply Hext; by right).
  pose proof (Hext x ltac:(left)). repeat case_decide; try done; tauto.
Qed.

Lemma unique_elem (l : list Text) x : x ∈ unique l ↔ x ∈ l.
Proof.
  induction l as [|y l IH]; [done|]. cbn [unique].
  rewrite !elem_of_cons, list_elem_of_filter, IH.
  destruct (decide (x = y)); tauto.
Qed.

Lemma unique_NoDup (l : list Text) : NoDup (unique l).
Proof.
  induction l as [|y l IH]; cbn [unique]; constructor.
  - rewrite list_elem_of_filter. tauto.
  - by apply NoDup_filter.
Qed.

Lemma unique_sublist (l : list Text) : unique l `sublist_of` l.
Proof.
  induction l as [|y l IH]; [done|]. cbn [unique].
  apply sublist_skip. etrans; [apply sublist_filter|done].
Qed.

(** X11. The two multiselects are created with the distinct values of their
    column, each once and in the order of the column, both as options and as
    default: countries from [Entity], impact types from [Health_Impact]. *)
Theorem multiselect_options (w : World) (data : DataFrame) (c : FilterCriteria)
    (page page' : list Element) :
  sidebar w data page = (Done c, page') →
  ∃ countries impacts,
    multiselect w "Select Country" countries countries = inr (entity_filter c)
    ∧ multiselect w "Select Health Impact Type" impacts impacts
      = inr (health_impact_filter c)
    ∧ NoDup countries ∧ NoDup impacts
    ∧ countries `sublist_of` (Entity <$> rows data)
    ∧ impacts `sublist_of` (Health_Impact <$> rows data)
    ∧ (∀ x, x ∈ countries ↔ ∃ r, r ∈ rows data ∧ Entity r = x)
    ∧ (∀ x, x ∈ impacts ↔ ∃ r, r ∈ rows data ∧ Health_Impact r = x).
Proof.
  intros (_ & _ & _ & _ & _ & _ & Hms1 & Hms2)%sidebar_done.
  exists (unique (Entity <$> rows data)), (unique (Health_Impact <$> rows data)).
  split_and!; try done; try apply unique_NoDup; try apply unique_sublist.
  - intros x. rewrite unique_elem, list_elem_of_fmap.
    split; intros (r & ? & ?); by exists r.
  - intros x. rewrite unique_elem, list_elem_of_fmap.
    split; intros (r & ? & ?); by exists r.
Qed.

Lemma multiselect_options_example :
  ∃ countries impacts,
    multiselect (Cases.untouched Example.dataset) "Select Country" countries countries
    = inr (entity_filter
             (mkCriteria (2015, 2019) [Some "Australia"; Some "Belgium"; Some "Atlantis"]
                         [Some "High"; Some "Low"]))
    ∧ multiselect (Cases.untouched Example.dataset) "Select Health Impact Type"
                  impacts impacts
      = inr (health_impact_filter
               (mkCriteria (2015, 2019) [Some "Australia"; Some "Belgium"; Some "Atlantis"]
                           [Some "High"; Some "Low"]))
    ∧ NoDup countries ∧ NoDup impacts
    ∧ countries `sublist_of` (Entity <$> rows Example.enriched)
    ∧ impacts `sublist_of` (Health_Impact <$> rows Example.enriched)
    ∧ (∀ x, x ∈ countries ↔ ∃ r, r ∈ rows Example.enriched ∧ Entity r = x)
    ∧ (∀ x, x ∈ impacts ↔ ∃ r, r ∈ rows Example.enriched ∧ Health_Impact r = x).
Proof.
  apply (multiselect_options (Cases.untouched Example.dataset) Example.enriched _ [] []).
  vm_compute. reflexivity.
Defined.

(** X12. While nobody touches the sidebar, every widget yielding its
    default, the criteria are the years 2015 to 2019 with every entity and
    every category of the dataset, and the view is exactly the rows of
    those years. *)
Theorem untouched_sidebar_view (w : World) (data : DataFrame) (c : FilterCriteria)
    (page page' : list Element) :
  sidebar w data page = (Done c, page') →
  (∀ label lo hi value, slider w label lo hi value = inr value) →
  (∀ label options default, multiselect w label options default = inr default) →
  year_range c = (2015, 2019)
  ∧ (∀ r, r ∈ rows data → Entity r ∈ entity_filter c
                          ∧ Health_Impact r ∈ health_impact_filter c)
  ∧ rows (filtered_data data c)
    = filter (λ r, 2015 ≤ Year r ∧ Year r ≤ 2019) (rows data).
Proof.
  intros Hside Hslider Hmulti.
  pose proof (sidebar_done _ _ _ _ _ Hside)
    as (_ & _ & _ & _ & _ & (lo & hi & Hsl) & Hms1 & Hms2).
  rewrite Hslider in Hsl. rewrite Hmulti in Hms1, Hms2.
  assert (Hyr : (2015, 2019) = year_range c) by congruence.
  assert (Hef : unique (Entity <$> rows data) = entity_filter c) by congruence.
  assert (Hhf : unique (Health_Impact <$> rows data) = health_impact_filter c)
    by congruence.
  assert (Hall : ∀ r, r ∈ rows data → Entity r ∈ entity_filter c
                                      ∧ Health_Impact r ∈ health_impact_filter c).
  { intros r Hr. rewrite <- Hef, <- Hhf, !unique_elem.
    split; by apply list_elem_of_fmap_2. }
  split_and!; [done|done|].
  rewrite filtered_data_rows.
  apply filter_ext_in. intros r Hr. destruct (Hall r Hr) as [He Hh].
  unfold satisfies. rewrite <- Hyr. cbn [fst snd]. tauto.
Qed.

Lemma untouched_sidebar_view_example :
  let c := mkCriteria (2015, 2019) [Some "Australia"; Some "Belgium"; Some "Atlantis"]
                      [Some "High"; Some "Low"] in
  year_range c = (2015, 2019)
  ∧ (∀ r, r ∈ rows Example.enriched → Entity r ∈ entity_filter c
                                      ∧ Health_Impact r ∈ health_impact_filter c)
  ∧ rows (filtered_data Example.enriched c)
    = filter (λ r, 2015 ≤ Year r ∧ Year r ≤ 2019) (rows Example.enriched).
Proof.
  apply (untouched_sidebar_view (Cases.untouched Example.dataset) Example.enriched _ [] []).
  - vm_compute. reflexivity.
  - reflexivity.
  - reflexivity.
Defined.

(** ** Filtering, again and otherwise *)

Lemma filtered_data_frame data c :
  filtered_data data c = mkFrame (columns data) (filter (satisfies c) (rows data)).
Proof. rewrite <- filtered_data_rows. reflexivity. Qed.

(** X13. The view depends on the selections only through membership: two
    criteria with the same year range whose entity lists hold the same
    entities and whose category lists hold the same categories, in whatever
    order and however often, give the same view. *)
Theorem selection_is_by_membership (data : DataFrame) (c1 c2 : FilterCriteria) :
  year_range c1 = year_range c2 →
  (∀ x, x ∈ entity_filter c1 ↔ x ∈ entity_filter c2) →
  (∀ x, x ∈ health_impact_filter c1 ↔ x ∈ health_impact_filter c2) →
  filtered_data data c1 = filtered_data data c2.
Proof.
  intros Hyr Hent Himp. rewrite !filtered_data_frame. f_equal.
  apply list_filter_iff. intros r. unfold satisfies.
  rewrite Hyr, (Hent (Entity r)), (Himp (Health_Impact r)). done.
Qed.

Lemma selection_is_by_membership_example :
  filtered_data Example.enriched Example.year_2015
  = filtered_data Example.enriched
      (mkCriteria (2015, 2015)
              [Some "Atlantis"; Some "Belgium"; Some "Australia"; Some "Belgium"]
                  [Some "Low"; Some "High"]).
Proof.
  apply (selection_is_by_membership Example.enriched Example.year_2015
           (mkCriteria (2015, 2015)
              [Some "Atlantis"; Some "Belgium"; Some "Australia"; Some "Belgium"]
                       [Some "Low"; Some "High"])).
  - reflexivity.
  - intros x. cbn [entity_filter Example.year_2015]. rewrite !elem_of_cons. tauto.
  - intros x. cbn [health_impact_filter Example.year_2015]. rewrite !elem_of_cons. tauto.
Defined.

(** X14. Filtering a view again keeps the rows that satisfy both criteria,
    in the order of the dataset.  So two filters can be applied in either
    order, and filtering twice by the same criteria is filtering once. *)
Theorem successive_filters (data : DataFrame) (c1 c2 : FilterCriteria) :
  rows (filtered_data (filtered_data data c1) c2)
  = filter (λ r, satisfies c2 r ∧ satisfies c1 r) (rows data)
  ∧ filtered_data (filtered_data data c1) c2 = filtered_data (filtered_data data c2) c1
  ∧ filtered_data (filtered_data data c1) c1 = filtered_data data c1.
Proof.
  split_and!.
  - by rewrite !filtered_data_rows, list_filter_filter.
  - rewrite !(filtered_data_frame (filtered_data _ _)), !filtered_data_rows.
    cbn [columns filtered_data getitem_mask]. f_equal.
    rewrite !list_filter_filter. apply list_filter_iff. tauto.
  - rewrite (filtered_data_frame (filtered_data _ _)), filtered_data_rows.
    rewrite (filtered_data_frame data c1) at 2.
    cbn [columns filtered_data getitem_mask]. f_equal.
    by apply list_filter_filter_l.
Qed.

Lemma narrower_satisfies c1 c2 r : narrower c1 c2 → satisfies c1 r → satisfies c2 r.
Proof.
  intros (Hlo & Hhi & Hent & Himp) ([Hy1 Hy2] & He & Hi).
  split_and!; [lia|lia|by apply Hent|by apply Himp].
Qed.

(** X15. Narrowing the criteria can only remove rows: when one selection
    has its year range inside another's and its entities and categories
    among the other's, its view is a part of the other's view, rows in the
    same order, and it is what filtering the other's view by it gives. *)
Theorem narrower_criteria_smaller_view (data : DataFrame) (c1 c2 : FilterCriteria) :
  narrower c1 c2 →
  rows (filtered_data data c1) `sublist_of` rows (filtered_data data c2)
  ∧ filtered_data (filtered_data data c2) c1 = filtered_data data c1.
Proof.
  intros Hnar.
  assert (Hrows : filter (satisfies c1) (filter (satisfies c2) (rows data))
                  = filter (satisfies c1) (rows data)).
  { apply list_filter_filter_l. intros r. by apply narrower_satisfies. }
  split.
  - rewrite !filtered_data_rows, <- Hrows. apply sublist_filter.
  - rewrite (filtered_data_frame (filtered_data _ _)), filtered_data_rows, Hrows.
    by rewrite (filtered_data_frame data c1).
Qed.

Lemma narrower_criteria_example :
  rows (filtered_data Example.enriched Example.spec_criteria)
    `sublist_of` rows (filtered_data Example.enriched Example.year_2015)
  ∧ filtered_data (filtered_data Example.enriched Example.year_2015) Example.spec_criteria
    = filtered_data Example.enriched Example.spec_criteria.
Proof.
  apply (narrower_criteria_smaller_view Example.enriched Example.spec_criteria
                                        Example.year_2015).
  unfold narrower. cbn. split_and!; [lia|lia| |done].
  intros x. rewrite !elem_of_cons. tauto.
Defined.

(** ** The charts and the selection *)

Lemma main_done_rendered w page s page' :
  main w page = (Done s, page') →
  ∃ c,
    sidebar w (var_data s) page = (Done c, page)
    ∧ var_filtered_data s = rendered_view (filtered_data (var_data s) c)
    ∧ var_health_data s
      = groupby_sum Year Premature_Death_Count (rows (var_filtered_data s))
    ∧ var_env_data s = groupby_sum Year Total_discharges (rows (var_filtered_data s))
    ∧ var_pie_data s = value_counts (Health_Impact <$> rows (var_filtered_data s)).
Proof.
  intros (data0 & c & page1 & Hread & Hent & Hdata & Hside & Hmap & Hagg)%main_done.
  exists c. split; [done|]. split; [|done].
  pose proof (sidebar_done _ _ _ _ _ Hside) as (_ & _ & _ & Himp & _).
  rewrite map_section_rendered in Hmap; [by injection Hmap as <- _| | |done].
  - rewrite Hdata. apply (geocoded_frame_coordinates data0).
  - rewrite Hdata. apply (geocoded_frame_coordinates data0).
Qed.

Lemma rendered_rows view r :
  r ∈ rows (rendered_view view) →
  ∃ r0, r0 ∈ rows view ∧ Year r = Year r0 ∧ Entity r = Entity r0
        ∧ Health_Impact r = Health_Impact r0.
Proof.
  unfold rendered_view. destruct (empty view).
  - intros Hr. by exists r.
  - cbn [rows colored_view]. intros (r0 & -> & Hr0)%list_elem_of_fmap. by exists r0.
Qed.

Lemma rendered_rows_length view : length (rows (rendered_view view)) = length (rows view).
Proof.
  unfold rendered_view. destruct (empty view); [done|].
  cbn [rows colored_view]. by rewrite length_fmap.
Qed.

Lemma sorted_range_length (l : list Z) lo hi :
  StronglySorted Z.lt l → (∀ y, y ∈ l → lo ≤ y ∧ y ≤ hi) →
  Z.of_nat (length l) ≤ Z.max 0 (hi - lo + 1).
Proof.
  intros Hs. revert lo. induction Hs as [|x l Hs IH Hall]; intros lo Hin.
  - cbn [length]. lia.
  - destruct (Hin x ltac:(left)) as [Hlo Hhi].
    assert (Hl : Z.of_nat (length l) ≤ Z.max 0 (hi - (x + 1) + 1)).
    { apply IH. intros y Hy. eapply Forall_forall in Hall; [|done].
      destruct (Hin y ltac:(by right)). lia. }
    cbn [length]. lia.
Qed.

(** X16. In a run that reaches its end, both line charts have their points
    at years of the selected range only, strictly ascending, so each has at
    most as many points as the range has years; the two charts have their
    points at the same years. *)
Theorem line_charts_within_range (w : World) (page page' : list Element) (s : State) :
  main w page = (Done s, page') →
  ∃ c,
    sidebar w (var_data s) page = (Done c, page)
    ∧ (∀ y, y ∈ (var_health_data s).*1 →
         (year_range c).1 ≤ y ∧ y ≤ (year_range c).2)
    ∧ StronglySorted Z.lt (var_health_data s).*1
    ∧ Z.of_nat (length (var_health_data s))
      ≤ Z.max 0 ((year_range c).2 - (year_range c).1 + 1)
    ∧ (var_env_data s).*1 = (var_health_data s).*1.
Proof.
  intros (c & Hside & Hview & Hhd & Hed & _)%main_done_rendered.
  exists c. split; [done|].
  assert (Hrange : ∀ y, y ∈ (var_health_data s).*1 →
                        (year_range c).1 ≤ y ∧ y ≤ (year_range c).2).
  { intros y. rewrite Hhd, groupby_sum_keys, Hview.
    intros (r & -> & Hr)%list_elem_of_fmap.
    apply rendered_rows in Hr as (r0 & Hr0 & -> & _).
    rewrite filtered_data_rows, list_elem_of_filter in Hr0.
    by destruct Hr0 as [[Hy _] _]. }
  assert (Hsorted : StronglySorted Z.lt (var_health_data s).*1)
    by (rewrite Hhd; apply groupby_sum_sorted).
  split_and!; [done|done| |].
  - rewrite <- (length_fmap fst). by apply sorted_range_length.
  - apply (StronglySorted_unique_strong Z.lt).
    + intros; lia.
    + rewrite Hed. apply groupby_sum_sorted.
    + done.
    + apply NoDup_Permutation.
      * rewrite Hed. apply sorted_lt_NoDup, groupby_sum_sorted.
      * by apply sorted_lt_NoDup.
      * intros y. by rewrite Hed, Hhd, !groupby_sum_keys.
Qed.

Lemma line_charts_within_range_example :
  ∃ s page',
    Example.run_2015 = (Done s, page')
    ∧ ∃ c,
        sidebar (Example.world (Example.present Example.dataset) Example.year_2015)
                (var_data s) [] = (Done c, [])
        ∧ (∀ y, y ∈ (var_health_data s).*1 →
             (year_range c).1 ≤ y ∧ y ≤ (year_range c).2)
        ∧ StronglySorted Z.lt (var_health_data s).*1
        ∧ Z.of_nat (length (var_health_data s))
          ≤ Z.max 0 ((year_range c).2 - (year_range c).1 + 1)
        ∧ (var_env_data s).*1 = (var_health_data s).*1.
Proof.
  eexists. eexists. split; [vm_compute; reflexivity|].
  eapply (line_charts_within_range
            (Example.world (Example.present Example.dataset) Example.year_2015) []).
  vm_compute. reflexivity.
Defined.

(** X17. In a run that reaches its end, every category of the pie chart is
    one of the selected categories and occurs in the dataset, and no count
    exceeds the number of rows of the dataset. *)
Theorem pie_within_selection (w : World) (page page' : list Element) (s : State) :
  main w page = (Done s, page') →
  ∃ c,
    sidebar w (var_data s) page = (Done c, page)
    ∧ ∀ x n, var_pie_data s !! x = Some n →
        Some x ∈ health_impact_filter c
        ∧ (∃ r, r ∈ rows (var_data s) ∧ Health_Impact r = Some x)
        ∧ (0 < n ∧ n ≤ length (rows (var_data s)))%nat.
Proof.
  intros (c & Hside & Hview & _ & _ & Hpd)%main_done_rendered.
  exists c. split; [done|]. intros x n. rewrite Hpd, value_counts_lookup.
  case_decide as Hin; [|done]. intros [= <-].
  apply list_elem_of_fmap in Hin as (r & Hx & Hr).
  rewrite Hview in Hr. apply rendered_rows in Hr as Hr0.
  destruct Hr0 as (r0 & Hr0 & _ & _ & Himp).
  rewrite filtered_data_rows, list_elem_of_filter in Hr0.
  destruct Hr0 as [(_ & _ & Hsel) Hdata].
  assert (Hx0 : Health_Impact r0 = Some x) by congruence.
  split_and!; [by rewrite <- Hx0|by exists r0| |].
  - rewrite (filter_fmap_length Health_Impact (λ y, y = Some x)).
    assert (Hin : r ∈ filter (λ r', Health_Impact r' = Some x)
                             (rows (var_filtered_data s))).
    { apply list_elem_of_filter. split; [done|by rewrite Hview]. }
    destruct (filter _ (rows (var_filtered_data s))); [by apply elem_of_nil in Hin|].
    cbn [length]. lia.
  - etrans; [apply length_filter|]. rewrite length_fmap, Hview, rendered_rows_length.
    apply sublist_length, select_sublist.
Qed.

Lemma pie_within_selection_example :
  ∃ s page',
    Example.run_2015 = (Done s, page')
    ∧ ∃ c,
        sidebar (Example.world (Example.present Example.dataset) Example.year_2015)
                (var_data s) [] = (Done c, [])
        ∧ ∀ x n, var_pie_data s !! x = Some n →
            Some x ∈ health_impact_filter c
            ∧ (∃ r, r ∈ rows (var_data s) ∧ Health_Impact r = Some x)
            ∧ (0 < n ∧ n ≤ length (rows (var_data s)))%nat.
Proof.
  eexists. eexists. split; [vm_compute; reflexivity|].
  eapply (pie_within_selection
            (Example.world (Example.present Example.dataset) Example.year_2015) []).
  vm_compute. reflexivity.
Defined.

(** ** Aggregates and the order of rows *)

Lemma sorted_keys_eq (l1 l2 : list Z) :
  StronglySorted Z.lt l1 → StronglySorted Z.lt l2 → (∀ y, y ∈ l1 ↔ y ∈ l2) → l1 = l2.
Proof.
  intros Hs1 Hs2 Hsame.
  apply (StronglySorted_unique_strong Z.lt); [intros; lia|done|done|].
  apply NoDup_Permutation; [by apply sorted_lt_NoDup..|done].
Qed.

Lemma sorted_keys_pairs (g : list (Z * Number)) :
  StronglySorted Z.lt g.*1 → StronglySorted (λ p q, p.1 < q.1) g.
Proof.
  induction g as [|p g IH]; [constructor|].
  rewrite fmap_cons. intros Hs. inversion Hs as [|? ? Hrest Hall]; subst.
  constructor; [by apply IH|].
  apply Forall_forall. intros q Hq.
  eapply Forall_forall in Hall; [exact Hall|]. by apply list_elem_of_fmap_2.
Qed.

Lemma sorted_groups_eq (g1 g2 : list (Z * Number)) :
  StronglySorted Z.lt g1.*1 → StronglySorted Z.lt g2.*1 →
  (∀ p, p ∈ g1 ↔ p ∈ g2) → g1 = g2.
Proof.
  intros Hs1 Hs2 Hsame.
  apply (StronglySorted_unique_strong (λ p q, p.1 < q.1)).
  - intros; lia.
  - by apply sorted_keys_pairs.
  - by apply sorted_keys_pairs.
  - apply NoDup_Permutation; [| |done].
    + by apply (NoDup_fmap_1 fst), sorted_lt_NoDup.
    + by apply (NoDup_fmap_1 fst), sorted_lt_NoDup.
Qed.

Lemma int64_filter (value : Row → Number) (P : Row → Prop) `{∀ r, Decision (P r)}
    (l : list Row) :
  Forall is_int64 (value <$> l) → Forall is_int64 (value <$> filter P l).
Proof.
  rewrite !Forall_fmap, !Forall_forall.
  intros Hall r [_ Hr]%list_elem_of_filter. by apply Hall.
Qed.

Lemma int64_Permutation (col1 col2 : list Number) :
  col1 ≡ₚ col2 → dtype_of col1 = int64 → dtype_of col2 = int64.
Proof.
  rewrite !dtype_of_int64, !Forall_forall. intros Hperm Hall v Hv.
  apply Hall. by rewrite Hperm.
Qed.

(** X18. The years of a time series and the category counts do not depend
    on the order of the rows, and for an int64 field neither do the sums:
    two views with the same rows in another order have the same years, the
    same series for an int64 field, and the same category counts.  The sums
    of a float64 field are rounded along the way and are not covered. *)
Theorem aggregates_ignore_row_order (value : Row → Number) (view1 view2 : list Row) :
  view1 ≡ₚ view2 →
  (groupby_sum Year value view1).*1 = (groupby_sum Year value view2).*1
  ∧ (dtype_of (value <$> view1) = int64 →
       groupby_sum Year value view1 = groupby_sum Year value view2)
  ∧ value_counts (Health_Impact <$> view1) = value_counts (Health_Impact <$> view2).
Proof.
  intros Hperm. split_and!.
  - apply sorted_keys_eq; try apply groupby_sum_sorted.
    intros y. by rewrite !groupby_sum_keys, Hperm.
  - intros Ht1.
    assert (Ht2 : dtype_of (value <$> view2) = int64)
      by by apply (int64_Permutation (value <$> view1)); [apply fmap_Permutation|].
    apply sorted_groups_eq; try apply groupby_sum_sorted.
    intros [y v]. rewrite !groupby_sum_elem, Ht1, Ht2.
    assert (Hsum : sum_as int64 (value <$> filter (λ r, Year r = y) view1)
                   = sum_as int64 (value <$> filter (λ r, Year r = y) view2)).
    { rewrite !sum_as_int64 by by apply int64_filter, dtype_of_int64.
      do 2 f_equal.
      by apply exact_sum_Permutation, fmap_Permutation, filter_Permutation. }
    rewrite Hsum. by rewrite Hperm.
  - apply map_eq. intros x. rewrite !value_counts_lookup.
    assert (Hlen : length (filter (λ y, y = Some x) (Health_Impact <$> view1))
                   = length (filter (λ y, y = Some x) (Health_Impact <$> view2)))
      by by apply Permutation_length, filter_Permutation, fmap_Permutation.
    rewrite Hlen.
    destruct (decide (Some x ∈ Health_Impact <$> view1)) as [Hin|Hin],
             (decide (Some x ∈ Health_Impact <$> view2)) as [Hin'|Hin']; try done.
    + by rewrite Hperm in Hin.
    + by rewrite <- Hperm in Hin'.
Qed.

Lemma aggregates_ignore_row_order_example :
  (groupby_sum Year Premature_Death_Count (rows Example.dataset)).*1
  = (groupby_sum Year Premature_Death_Count (reverse (rows Example.dataset))).*1
  ∧ (dtype_of (Premature_Death_Count <$> rows Example.dataset) = int64 →
       groupby_sum Year Premature_Death_Count (rows Example.dataset)
       = groupby_sum Year Premature_Death_Count (reverse (rows Example.dataset)))
  ∧ value_counts (Health_Impact <$> rows Example.dataset)
    = value_counts (Health_Impact <$> reverse (rows Example.dataset)).
Proof.
  apply (aggregates_ignore_row_order Premature_Death_Count (rows Example.dataset)
                                     (reverse (rows Example.dataset))).
  symmetry. apply reverse_Permutation.
Defined.

(** ** The centre of the map *)





(** ** Enriching again *)

Lemma add_column_present name cols : name ∈ cols → add_column name cols = cols.
Proof. intros Hin. unfold add_column. by rewrite bool_decide_eq_true_2. Qed.

Lemma add_column_prefix name cols : cols `prefix_of` add_column name cols.
Proof.
  unfold add_column. case_bool_decide; [done|]. by apply prefix_app_r.
Qed.

Lemma add_column_NoDup name cols : NoDup cols → NoDup (add_column name cols).
Proof.
  intros Hnd. unfold add_column. case_bool_decide as Hin; [done|].
  apply NoDup_app. split_and!; [done| |apply NoDup_singleton].
  intros x Hx ->%list_elem_of_singleton. done.
Qed.

Lemma geocoded_idemp r : geocoded (geocoded r) = geocoded r.
Proof. by destruct r. Qed.

(** X20. Enriching is safe to repeat and keeps the header in order: a
    dataset that has been enriched is left as it is by enriching it again;
    the columns the file came with keep their places, the two coordinate
    columns being appended only where they are not there yet, and a header
    without repeated names stays so. *)
Theorem enriching_again (data data' : DataFrame) (page page' : list Element) :
  add_coordinates data page = (Done data', page') →
  add_coordinates data' page' = (Done data', page')
  ∧ columns data `prefix_of` columns data'
  ∧ (NoDup (columns data) → NoDup (columns data')).
Proof.
  intros Henr.
  destruct (decide ("Entity" ∈ columns data)) as [Hent|Hent];
    [|by rewrite add_coordinates_absent in Henr].
  rewrite add_coordinates_present in Henr by done. injection Henr as <- <-.
  cbn [columns]. split_and!.
  - rewrite add_coordinates_present
      by (cbn [columns]; rewrite !elem_of_add_column; tauto).
    cbn [columns rows].
    assert (Hcols : add_column "longitude"
                      (add_column "latitude"
                         (add_column "longitude" (add_column "latitude" (columns data))))
                    = add_column "longitude" (add_column "latitude" (columns data))).
    { rewrite (add_column_present "latitude")
        by (rewrite !elem_of_add_column; tauto).
      apply add_column_present. rewrite !elem_of_add_column. tauto. }
    assert (Hrows : geocoded <$> (geocoded <$> rows data) = geocoded <$> rows data).
    { rewrite <- list_fmap_compose. apply list_fmap_ext.
      intros _ r _. apply geocoded_idemp. }
    by rewrite Hcols, Hrows.
  - etrans; apply add_column_prefix.
  - intros Hnd. by do 2 apply add_column_NoDup.
Qed.

Lemma enriching_again_example :
  add_coordinates Example.enriched [] = (Done Example.enriched, [])
  ∧ columns Example.dataset `prefix_of` columns Example.enriched
  ∧ (NoDup (columns Example.dataset) → NoDup (columns Example.enriched)).
Proof.
  apply (enriching_again Example.dataset Example.enriched [] []).
  vm_compute. reflexivity.
Defined.

(** ** The charts and the map *)

Lemma groupby_sum_fmap (key : Row → Z) (value : Row → Number) (f : Row → Row)
    (l : list Row) :
  (∀ r, key (f r) = key r) → (∀ r, value (f r) = value r) →
  groupby_sum key value (f <$> l) = groupby_sum key value l.
Proof.
  intros Hkey Hvalue. unfold groupby_sum.
  assert (Hcol : value <$> (f <$> l) = value <$> l).
  { rewrite <- list_fmap_compose. apply list_fmap_ext. intros _ r _. apply Hvalue. }
  rewrite Hcol. clear Hcol. generalize (zero (dtype_of (value <$> l))). intros start.
  induction l as [|r l IH] using rev_ind; [done|].
  rewrite fmap_app. change (f <$> [r]) with [f r].
  by rewrite !group_rows_snoc, IH, Hkey, Hvalue.
Qed.

Lemma rendered_aggregates view :
  groupby_sum Year Premature_Death_Count (rows (rendered_view view))
  = groupby_sum Year Premature_Death_Count (rows view)
  ∧ groupby_sum Year Total_discharges (rows (rendered_view view))
    = groupby_sum Year Total_discharges (rows view)
  ∧ Health_Impact <$> rows (rendered_view view) = Health_Impact <$> rows view.
Proof.
  unfold rendered_view. destruct (empty view); [done|].
  cbn [rows colored_view]. split_and!.
  - by apply groupby_sum_fmap.
  - by apply groupby_sum_fmap.
  - rewrite <- list_fmap_compose. by apply list_fmap_ext.
Qed.

(** X21. The color column the map block writes into the view does not reach
    the charts: in a run that reaches its end the two time series and the
    category counts, though computed from the view after line 87, are those
    of the view as the filter produced it. *)
Theorem charts_of_the_filtered_view (w : World) (page page' : list Element) (s : State) :
  main w page = (Done s, page') →
  ∃ c,
    sidebar w (var_data s) page = (Done c, page)
    ∧ var_health_data s
      = groupby_sum Year Premature_Death_Count (rows (filtered_data (var_data s) c))
    ∧ var_env_data s
      = groupby_sum Year Total_discharges (rows (filtered_data (var_data s) c))
    ∧ var_pie_data s
      = value_counts (Health_Impact <$> rows (filtered_data (var_data s) c)).
Proof.
  intros (c & Hside & Hview & Hhd & Hed & Hpd)%main_done_rendered.
  exists c. split; [done|].
  destruct (rendered_aggregates (filtered_data (var_data s) c)) as (H1 & H2 & H3).
  rewrite Hhd, Hed, Hpd, Hview. by rewrite H1, H2, H3.
Qed.

Lemma charts_of_the_filtered_view_example :
  ∃ s page',
    Example.run_2015 = (Done s, page')
    ∧ ∃ c,
        sidebar (Example.world (Example.present Example.dataset) Example.year_2015)
                (var_data s) [] = (Done c, [])
        ∧ var_health_data s
          = groupby_sum Year Premature_Death_Count (rows (filtered_data (var_data s) c))
        ∧ var_env_data s
          = groupby_sum Year Total_discharges (rows (filtered_data (var_data s) c))
        ∧ var_pie_data s
          = value_counts (Health_Impact <$> rows (filtered_data (var_data s) c)).
Proof.
  eexists. eexists. split; [vm_compute; reflexivity|].
  eapply (charts_of_the_filtered_view
            (Example.world (Example.present Example.dataset) Example.year_2015) []).
  vm_compute. reflexivity.
Defined.

Lemma groupby_sum_nil_inv (key : Row → Z) (value : Row → Number) (l : list Row) :
  groupby_sum key value l = [] → l = [].
Proof.
  destruct l as [|r l]; [done|]. intros Hnil.
  assert (Hin : key r ∈ (groupby_sum key value (r :: l)).*1)
    by (apply groupby_sum_keys; left).
  rewrite Hnil in Hin. by apply elem_of_nil in Hin.
Qed.

Lemma value_counts_empty (col : list Text) :
  value_counts col = ∅ ↔ ∀ cell, cell ∈ col → cell = None.
Proof.
  split.
  - intros Hemp [x|] Hin; [|done].
    assert (Hx : value_counts col !! x = None) by by rewrite Hemp.
    by rewrite value_counts_lookup, decide_True in Hx by done.
  - intros Hall. apply map_eq. intros x.
    rewrite lookup_empty, value_counts_lookup, decide_False; [done|].
    intros Hin. by specialize (Hall _ Hin).
Qed.

(** X22. In a run that reaches its end the no-data message and empty line
    charts go together: the view has no rows exactly when the death-count
    series is empty, exactly when the discharge series is empty, and
    exactly when the first element of the page is the message, not a map.
    The pie has no category exactly when no row of the view has a health
    impact, so in particular when the view has no rows. *)
Theorem no_data_means_empty_charts (w : World) (page page' : list Element) (s : State) :
  main w page = (Done s, page') →
  (rows (var_filtered_data s) = [] ↔ var_health_data s = [])
  ∧ (rows (var_filtered_data s) = [] ↔ var_env_data s = [])
  ∧ (var_pie_data s = ∅ ↔ ∀ r, r ∈ rows (var_filtered_data s) → Health_Impact r = None)
  ∧ (rows (var_filtered_data s) = [] → var_pie_data s = ∅)
  ∧ (rows (var_filtered_data s) = [] ↔
       ∃ rest, page' = page ++ error "No data available for the selected year range and filters."
                               :: rest).
Proof.
  intros Hmain.
  pose proof (main_done_rendered _ _ _ _ Hmain) as (c & Hside & Hview & Hhd & Hed & Hpd).
  split_and!.
  - rewrite Hhd. split; [by intros ->|apply groupby_sum_nil_inv].
  - rewrite Hed. split; [by intros ->|apply groupby_sum_nil_inv].
  - rewrite Hpd, value_counts_empty. split.
    + intros Hall r Hr. apply Hall. by apply list_elem_of_fmap_2.
    + intros Hall cell (r & -> & Hr)%list_elem_of_fmap. by apply Hall.
  - rewrite Hpd. by intros ->.
  - destruct (main_cases w page)
      as [[msg Hread]|[(e' & Hread & Hne)|[(data0 & Hread & Hent)|
          [(data0 & e' & Hread & Hent & Hs)|(data0 & c' & Hread & Hent & Hs)]]]].
    + by rewrite (main_not_found w page msg Hread) in Hmain.
    + by rewrite (main_read_error w page e' Hread Hne) in Hmain.
    + by rewrite (main_no_entity w page data0 Hread Hent) in Hmain.
    + by rewrite (main_sidebar_stopped w page data0 _ _ Hread Hent Hs) in Hmain.
    + rewrite (main_forward w page data0 c' Hread Hent Hs) in Hmain.
      cbv zeta in Hmain.
      case_bool_decide; [case_bool_decide|]; try done.
      destruct (button w "Refresh Dashboard"); [done|].
      injection Hmain as <- <-. cbn [var_filtered_data].
      rewrite <- (length_zero_iff_nil (rows (rendered_view _))), rendered_rows_length,
        length_zero_iff_nil.
      unfold first_element.
      destruct (rows (filtered_data (geocoded_frame data0) c')) as [|r l] eqn:Hrows.
      * rewrite empty_rows_nil by done. split; [by eauto|done].
      * rewrite (nonempty_view _ r "latitude");
          [|rewrite Hrows; left|apply geocoded_frame_coordinates].
        split; [done|]. intros [rest Heq]. apply app_inv_head in Heq. done.
Qed.

Lemma no_data_means_empty_charts_example :
  ∃ s page',
    main (Example.world (Example.present Example.dataset) Example.no_entity) []
    = (Done s, page')
    ∧ (rows (var_filtered_data s) = [] ↔ var_health_data s = [])
    ∧ (rows (var_filtered_data s) = [] ↔ var_env_data s = [])
    ∧ (var_pie_data s = ∅
       ↔ ∀ r, r ∈ rows (var_filtered_data s) → Health_Impact r = None)
    ∧ (rows (var_filtered_data s) = [] → var_pie_data s = ∅)
    ∧ (rows (var_filtered_data s) = [] ↔
         ∃ rest, page' = [] ++ error "No data available for the selected year range and filters."
                               :: rest).
Proof.
  eexists. eexists. split; [vm_compute; reflexivity|].
  eapply (no_data_means_empty_charts
            (Example.world (Example.present Example.dataset) Example.no_entity) []).
  vm_compute. reflexivity.
Defined.

(** X23. In a run that reaches its end the map and the pie agree on the rows
    that have a health impact: the layer of the map holds the view the
    script is left with, one marker per row, and the counts of the pie add
    up to the number of those rows that have a health impact.  So the pie
    never counts more than the map shows, and counts as many exactly when
    no health impact is missing. *)
Theorem markers_and_pie_agree (w : World) (page page' : list Element) (s : State)
    (deck : Deck) (lyr : Layer) :
  main w page = (Done s, page') →
  pydeck_chart deck ∈ page' → pydeck_chart deck ∉ page → layers deck = [lyr] →
  layer_data lyr = var_filtered_data s
  ∧ total_count (var_pie_data s) = length (filter labelled (rows (layer_data lyr)))
  ∧ (total_count (var_pie_data s) ≤ length (rows (layer_data lyr)))%nat
  ∧ ((∀ r, r ∈ rows (layer_data lyr) → labelled r)
     ↔ total_count (var_pie_data s) = length (rows (layer_data lyr))).
Proof.
  intros Hmain Hin Hnew Hlyr.
  pose proof (main_done_rendered _ _ _ _ Hmain) as (c & Hside & Hview & _ & _ & Hpd).
  assert (Hdata : layer_data lyr = var_filtered_data s).
  { destruct (main_cases w page)
      as [[msg Hread]|[(e' & Hread & Hne)|[(data0 & Hread & Hent)|
          [(data0 & e' & Hread & Hent & Hs)|(data0 & c' & Hread & Hent & Hs)]]]].
    - by rewrite (main_not_found w page msg Hread) in Hmain.
    - by rewrite (main_read_error w page e' Hread Hne) in Hmain.
    - by rewrite (main_no_entity w page data0 Hread Hent) in Hmain.
    - by rewrite (main_sidebar_stopped w page data0 _ _ Hread Hent Hs) in Hmain.
    - rewrite (main_forward w page data0 c' Hread Hent Hs) in Hmain.
      cbv zeta in Hmain.
      case_bool_decide; [case_bool_decide|]; try done.
      destruct (button w "Refresh Dashboard"); [done|].
      injection Hmain as <- <-. cbn [var_filtered_data].
      apply elem_of_app in Hin as [Hin|Hin]; [done|].
      unfold first_element, rendered_view, health_chart, env_chart, pie_chart in *.
      destruct (empty (filtered_data (geocoded_frame data0) c')).
      + repeat (apply elem_of_cons in Hin as [Hin|Hin]; [done|]).
        by apply elem_of_nil in Hin.
      + apply elem_of_cons in Hin as [Hin|Hin].
        * injection Hin as ->. cbn [layers map_of] in Hlyr. by injection Hlyr as <-.
        * repeat (apply elem_of_cons in Hin as [Hin|Hin]; [done|]).
          by apply elem_of_nil in Hin. }
  assert (Htotal : total_count (var_pie_data s)
                   = length (filter labelled (rows (layer_data lyr))))
    by by rewrite Hdata, Hpd, value_counts_labelled.
  split_and!; [done|done| |].
  - rewrite Htotal. apply length_filter.
  - rewrite Htotal. apply filter_length_all.
Qed.

Lemma markers_and_pie_agree_example :
  ∃ s page' deck lyr,
    main (Cases.untouched Cases.dataset_blank_label) [] = (Done s, page')
    ∧ page' !! 0%nat = Some (pydeck_chart deck)
    ∧ layers deck = [lyr]
    ∧ length (rows (layer_data lyr)) = 3%nat
    ∧ total_count (var_pie_data s) = 2%nat
    ∧ layer_data lyr = var_filtered_data s
    ∧ total_count (var_pie_data s) = length (filter labelled (rows (layer_data lyr)))
    ∧ (total_count (var_pie_data s) ≤ length (rows (layer_data lyr)))%nat
    ∧ ((∀ r, r ∈ rows (layer_data lyr) → labelled r)
       ↔ total_count (var_pie_data s) = length (rows (layer_data lyr))).
Proof.
  do 4 eexists. split; [vm_compute; reflexivity|].
  split; [vm_compute; reflexivity|].
  split; [vm_compute; reflexivity|].
  split; [vm_compute; reflexivity|].
  split; [vm_compute; reflexivity|].
  eapply (markers_and_pie_agree (Cases.untouched Cases.dataset_blank_label) []).
  - vm_compute. reflexivity.
  - left.
  - apply not_elem_of_nil.
  - reflexivity.
Defined.
